(** * Kev.in backend: access control of the user and exercise resources

    Shallow embedding of
      - [backend/database/models.py]    (roles, the user table),
      - [backend/lib/routes/user.py]    ([UserResource]),
      - [backend/lib/routes/exercise.py] ([ExerciseResource._authorize]),
    followed by the properties of the authorization decision and of the
    handlers built on it.

    Python exceptions are kept as values: a computation is a [result],
    either [Ret v] or [Raise e].  An exception that leaves a handler is what
    Flask answers with status 500. *)

From Stdlib Require Import ZArith String Ascii List Bool Lia DecimalString.
Import ListNotations.
Local Open Scope string_scope.
Local Open Scope Z_scope.

(** ** Python run-time: exceptions, dynamic values, dictionaries *)

Module Py.

(** The exception classes that occur in the routes. *)
Inductive exn : Type :=
| DecodeError                     (* jwt.exceptions.DecodeError *)
| InvalidSignatureError           (* jwt: subclass of DecodeError *)
| InvalidAlgorithmError           (* jwt: subclass of InvalidTokenError only *)
| ExpiredSignatureError           (* jwt: subclass of InvalidTokenError only *)
| KeyError (key : string)
| IndexError
| TypeError                       (* subscript of None, wrong argument type *)
| ValueError
| NoSuchColumnError (col : string)  (* sqlalchemy.exc, a KeyError *)
| NoResultFound                   (* sqlalchemy.exc *)
| IntegrityError                  (* sqlalchemy.exc: constraint violated *)
| CompileError                    (* sqlalchemy.exc: unknown column in values() *)
| StatementError.                 (* sqlalchemy.exc: value of the wrong type *)

Inductive result (A : Type) : Type :=
| Ret (v : A)
| Raise (e : exn).
Arguments Ret {A} v.
Arguments Raise {A} e.

Definition bind {A B : Type} (c : result A) (k : A -> result B) : result B :=
  match c with
  | Ret v => k v
  | Raise e => Raise e
  end.

(** [except jwt.exceptions.DecodeError]: the class and its subclasses. *)
Definition is_DecodeError (e : exn) : bool :=
  match e with
  | DecodeError | InvalidSignatureError => true
  | _ => false
  end.

(** [except sqlalchemy.exc.NoResultFound]. *)
Definition is_NoResultFound (e : exn) : bool :=
  match e with
  | NoResultFound => true
  | _ => false
  end.

(** [try: c  except cls: h  else: k]. *)
Definition try_except_else {A B : Type} (c : result A) (cls : exn -> bool)
    (h : result B) (k : A -> result B) : result B :=
  match c with
  | Ret v => k v
  | Raise e => if cls e then h else Raise e
  end.

(** A dictionary with string keys, in insertion order. *)
Definition dict (V : Type) : Type := list (string * V).

Fixpoint dict_get {V : Type} (d : dict V) (k : string) : option V :=
  match d with
  | [] => None
  | (k', v) :: d' => if String.eqb k' k then Some v else dict_get d' k
  end.

(** [k in d] *)
Definition dict_contains {V : Type} (d : dict V) (k : string) : bool :=
  match dict_get d k with
  | Some _ => true
  | None => false
  end.

(** [d[k]] *)
Definition dict_getitem {V : Type} (d : dict V) (k : string) : result V :=
  match dict_get d k with
  | Some v => Ret v
  | None => Raise (KeyError k)
  end.

(** [del d[k]] *)
Fixpoint dict_remove {V : Type} (d : dict V) (k : string) : dict V :=
  match d with
  | [] => []
  | (k', v) :: d' =>
      if String.eqb k' k then dict_remove d' k else (k', v) :: dict_remove d' k
  end.

Definition dict_del {V : Type} (d : dict V) (k : string) : result (dict V) :=
  if dict_contains d k then Ret (dict_remove d k) else Raise (KeyError k).

(** A dictionary with integer keys ([result[int(row["user_id"])] = ...]):
    assigning to a key that is present replaces its value in place. *)
Fixpoint zdict_set {V : Type} (d : list (Z * V)) (k : Z) (v : V) : list (Z * V) :=
  match d with
  | [] => [(k, v)]
  | (k', v') :: d' =>
      if Z.eqb k' k then (k, v) :: d' else (k', v') :: zdict_set d' k v
  end.

(** [str(n)] for an integer. *)
Definition str_of_int (n : Z) : string :=
  match n with
  | Z0 => "0"
  | _ => DecimalString.NilZero.string_of_int (Z.to_int n)
  end.

End Py.
Export Py.

Declare Scope py_scope.
Delimit Scope py_scope with py.
Notation "x <- c ;; k" := (Py.bind c (fun x => k))
  (at level 100, c at next level, right associativity) : py_scope.
Local Open Scope py_scope.

(** ** backend/database/models.py *)

Module Models.

(** Modelled from the spec: the role enumeration [UserRole] that [user.py]
    imports from [backend.lib.interfaces.database], a module that is not
    among the sources.  The spec gives the ordered enumeration
    {SuperAdmin, Admin, User}; [user.py] names the members [SAdmin],
    [Admin] and [User], and they are taken as it names them.  [models.py]
    declares the same enumeration with the values 1, 2, 3 (its first member
    is spelled [SAdimn]). *)
Inductive UserRole : Type := SAdmin | Admin | User.

(** The integer of an [IntEnum] member. *)
Definition UserRole_value (r : UserRole) : Z :=
  match r with
  | SAdmin => 1
  | Admin => 2
  | User => 3
  end.

(** [r.name] *)
Definition UserRole_name (r : UserRole) : string :=
  match r with
  | SAdmin => "SAdmin"
  | Admin => "Admin"
  | User => "User"
  end.

(** [UserRole(n)]: [ValueError] (here [None]) outside 1..3. *)
Definition UserRole_of_int (n : Z) : option UserRole :=
  if n =? 1 then Some SAdmin
  else if n =? 2 then Some Admin
  else if n =? 3 then Some User
  else None.

Definition UserRole_eqb (a b : UserRole) : bool :=
  UserRole_value a =? UserRole_value b.

(** A row of the user table ([UserModel]); every column is NOT NULL. *)
Record UserModel : Type := mkUser {
  user_id : Z;
  user_name : string;
  user_pass : string;
  user_mail : string;
  user_role : UserRole
}.

(** Values as they travel between request, query and row. *)
Inductive value : Type :=
| VNone
| VBool (b : bool)
| VInt (n : Z)
| VStr (s : string)
| VRole (r : UserRole).

(** Python truthiness ([if x:], [not x]).  An [IntEnum] member is an int. *)
Definition truthy (v : value) : bool :=
  match v with
  | VNone => false
  | VBool b => b
  | VInt n => negb (n =? 0)
  | VStr s => negb (String.eqb s "")
  | VRole r => negb (UserRole_value r =? 0)
  end.

(** The integer behind a value that is an int in Python. *)
Definition as_int (v : value) : option Z :=
  match v with
  | VBool b => Some (if b then 1 else 0)
  | VInt n => Some n
  | VRole r => Some (UserRole_value r)
  | _ => None
  end.

(** [a == b] *)
Definition value_eqb (a b : value) : bool :=
  match a, b with
  | VNone, VNone => true
  | VStr s, VStr t => String.eqb s t
  | _, _ =>
      match as_int a, as_int b with
      | Some m, Some n => m =? n
      | _, _ => false
      end
  end.

(** [a >= b] on integers (the only use is [user_id >= offset]). *)
Definition value_geb (a b : value) : bool :=
  match as_int a, as_int b with
  | Some m, Some n => n <=? m
  | _, _ => false
  end.

(** The columns of the user table, in declaration order. *)
Definition columns : list string :=
  ["user_id"; "user_name"; "user_pass"; "user_mail"; "user_role"].

Definition is_column (c : string) : bool := existsb (String.eqb c) columns.

(** The value of a row in the column [c], if there is such a column. *)
Definition column (r : UserModel) (c : string) : option value :=
  if String.eqb c "user_id" then Some (VInt (user_id r))
  else if String.eqb c "user_name" then Some (VStr (user_name r))
  else if String.eqb c "user_pass" then Some (VStr (user_pass r))
  else if String.eqb c "user_mail" then Some (VStr (user_mail r))
  else if String.eqb c "user_role" then Some (VRole (user_role r))
  else None.

End Models.
Export Models.

(** ** backend/database/models.py: the exercises *)

Module ExerciseModels.

Inductive ExerciseType : Type :=
| GapTextExercise
| SyntaxExercise
| ParsonsPuzzleExercise
| FindTheBugExercise
| DocumentationExercise
| OutputExercise
| ProgrammingExercise.

Definition ExerciseType_value (t : ExerciseType) : Z :=
  match t with
  | GapTextExercise => 1
  | SyntaxExercise => 2
  | ParsonsPuzzleExercise => 3
  | FindTheBugExercise => 4
  | DocumentationExercise => 5
  | OutputExercise => 6
  | ProgrammingExercise => 7
  end.

(** [t.name], which is also what the Enum column holds in the database. *)
Definition ExerciseType_name (t : ExerciseType) : string :=
  match t with
  | GapTextExercise => "GapTextExercise"
  | SyntaxExercise => "SyntaxExercise"
  | ParsonsPuzzleExercise => "ParsonsPuzzleExercise"
  | FindTheBugExercise => "FindTheBugExercise"
  | DocumentationExercise => "DocumentationExercise"
  | OutputExercise => "OutputExercise"
  | ProgrammingExercise => "ProgrammingExercise"
  end.

(** [ExerciseType(n)]: [ValueError] (here [None]) outside 1..7. *)
Definition ExerciseType_of_int (n : Z) : option ExerciseType :=
  if n =? 1 then Some GapTextExercise
  else if n =? 2 then Some SyntaxExercise
  else if n =? 3 then Some ParsonsPuzzleExercise
  else if n =? 4 then Some FindTheBugExercise
  else if n =? 5 then Some DocumentationExercise
  else if n =? 6 then Some OutputExercise
  else if n =? 7 then Some ProgrammingExercise
  else None.

Inductive ExerciseLanguage : Type := Python | Java.

Definition ExerciseLanguage_value (l : ExerciseLanguage) : Z :=
  match l with
  | Python => 1
  | Java => 2
  end.

Definition ExerciseLanguage_name (l : ExerciseLanguage) : string :=
  match l with
  | Python => "Python"
  | Java => "Java"
  end.

(** [ExerciseLanguage(n)] *)
Definition ExerciseLanguage_of_int (n : Z) : option ExerciseLanguage :=
  if n =? 1 then Some Python
  else if n =? 2 then Some Java
  else None.

(** An argument of [ExerciseModel.__init__] that is a member or an int:
    [x if isinstance(x, E) else E(x)]. *)
Inductive enum_arg (E : Type) : Type :=
| Member (e : E)
| Number (n : Z).
Arguments Member {E} e.
Arguments Number {E} n.

Definition coerce {E : Type} (of_int : Z -> option E) (a : enum_arg E) : result E :=
  match a with
  | Member e => Ret e
  | Number n =>
      match of_int n with
      | Some e => Ret e
      | None => Raise ValueError
      end
  end.

(** A row of the exercise table ([ExerciseModel]).  The description, the
    content and the solution are nullable. *)
Record ExerciseModel : Type := mkExercise {
  exercise_id : Z;
  exercise_title : string;
  exercise_description : option string;
  exercise_type : ExerciseType;
  exercise_content : option string;
  exercise_solution : option string;
  exercise_language : ExerciseLanguage
}.

(** [ExerciseModel.__init__]: the object before the store gives it an id
    (kept at 0 here). *)
Definition ExerciseModel_init (title description : string)
    (type : enum_arg ExerciseType) (content solution : string)
    (language : enum_arg ExerciseLanguage) : result ExerciseModel :=
  t <- coerce ExerciseType_of_int type ;;
  l <- coerce ExerciseLanguage_of_int language ;;
  Ret (mkExercise 0 title (Some description) t (Some content) (Some solution) l).

Definition nullable (x : option string) : value :=
  match x with
  | Some s => VStr s
  | None => VNone
  end.

(** The value of an exercise row in the column [c] as a WHERE clause
    compares it: the Enum columns by the member's name. *)
Definition exercise_column (r : ExerciseModel) (c : string) : option value :=
  if String.eqb c "exercise_id" then Some (VInt (exercise_id r))
  else if String.eqb c "exercise_title" then Some (VStr (exercise_title r))
  else if String.eqb c "exercise_description" then Some (nullable (exercise_description r))
  else if String.eqb c "exercise_type" then Some (VStr (ExerciseType_name (exercise_type r)))
  else if String.eqb c "exercise_content" then Some (nullable (exercise_content r))
  else if String.eqb c "exercise_solution" then Some (nullable (exercise_solution r))
  else if String.eqb c "exercise_language"
  then Some (VStr (ExerciseLanguage_name (exercise_language r)))
  else None.

(** A SELECT on the exercise table with equality clauses only. *)
Definition exercise_holds (r : ExerciseModel) (cond : string * value) : bool :=
  match exercise_column r (fst cond) with
  | Some x => value_eqb x (snd cond)
  | None => false
  end.

Definition exercise_select (t : list ExerciseModel) (conds : list (string * value))
    : list ExerciseModel :=
  filter (fun r => forallb (exercise_holds r) conds) t.

End ExerciseModels.
Export ExerciseModels.

(** ** hashlib.sha256(...).hexdigest()

    The digest of FIPS 180-4 over a list of bytes, 32-bit words as [Z] with
    the wrap-around written out.  A Python [str] is held as the string of
    its UTF-8 bytes, so [bytes(s, encoding="utf-8")] is the list of its
    characters' codes. *)

Module SHA256.

Definition mask32 : Z := 0xffffffff.
Definition add32 (x y : Z) : Z := (x + y) mod 2 ^ 32.
Definition rotr (n x : Z) : Z :=
  Z.lor (Z.shiftr x n) (Z.land (Z.shiftl x (32 - n)) mask32).
Definition xor3 (x y z : Z) : Z := Z.lxor (Z.lxor x y) z.

Definition Ch (x y z : Z) : Z :=
  Z.lxor (Z.land x y) (Z.land (Z.lxor x mask32) z).
Definition Maj (x y z : Z) : Z :=
  xor3 (Z.land x y) (Z.land x z) (Z.land y z).
Definition Sigma0 (x : Z) : Z := xor3 (rotr 2 x) (rotr 13 x) (rotr 22 x).
Definition Sigma1 (x : Z) : Z := xor3 (rotr 6 x) (rotr 11 x) (rotr 25 x).
Definition sigma0 (x : Z) : Z := xor3 (rotr 7 x) (rotr 18 x) (Z.shiftr x 3).
Definition sigma1 (x : Z) : Z := xor3 (rotr 17 x) (rotr 19 x) (Z.shiftr x 10).

(** The round constants, in decimal. *)
Definition K : list Z :=
  [
    1116352408; 1899447441; 3049323471; 3921009573;
    961987163; 1508970993; 2453635748; 2870763221;
    3624381080; 310598401; 607225278; 1426881987;
    1925078388; 2162078206; 2614888103; 3248222580;
    3835390401; 4022224774; 264347078; 604807628;
    770255983; 1249150122; 1555081692; 1996064986;
    2554220882; 2821834349; 2952996808; 3210313671;
    3336571891; 3584528711; 113926993; 338241895;
    666307205; 773529912; 1294757372; 1396182291;
    1695183700; 1986661051; 2177026350; 2456956037;
    2730485921; 2820302411; 3259730800; 3345764771;
    3516065817; 3600352804; 4094571909; 275423344;
    430227734; 506948616; 659060556; 883997877;
    958139571; 1322822218; 1537002063; 1747873779;
    1955562222; 2024104815; 2227730452; 2361852424;
    2428436474; 2756734187; 3204031479; 3329325298
  ].

Definition state : Type := (Z * Z * Z * Z * Z * Z * Z * Z)%type.

Definition H0 : state :=
  (1779033703, 3144134277, 1013904242, 2773480762,
   1359893119, 2600822924, 528734635, 1541459225).

Definition round (st : state) (k w : Z) : state :=
  let '(a, b, c, d, e, f, g, h) := st in
  let t1 := add32 (add32 (add32 (add32 h (Sigma1 e)) (Ch e f g)) k) w in
  let t2 := add32 (Sigma0 a) (Maj a b c) in
  (add32 t1 t2, a, b, c, add32 d t1, e, f, g).

(** The 64 rounds over a sliding window of the last 16 schedule words:
    the head of the window is W[t], and W[t+16] is appended. *)
Fixpoint rounds (ks : list Z) (win : list Z) (st : state) : state :=
  match ks with
  | [] => st
  | k :: ks' =>
      let w := nth 0 win 0 in
      let next :=
        add32 (add32 (add32 (sigma1 (nth 14 win 0)) (nth 9 win 0))
                     (sigma0 (nth 1 win 0))) w in
      rounds ks' (tl win ++ [next]) (round st k w)
  end.

Definition add_state (s t : state) : state :=
  let '(a, b, c, d, e, f, g, h) := s in
  let '(a', b', c', d', e', f', g', h') := t in
  (add32 a a', add32 b b', add32 c c', add32 d d',
   add32 e e', add32 f f', add32 g g', add32 h h').

(** Big-endian 32-bit words of a list of bytes. *)
Fixpoint words (fuel : nat) (bs : list Z) : list Z :=
  match fuel, bs with
  | S fuel', b0 :: b1 :: b2 :: b3 :: bs' =>
      (b0 * 2 ^ 24 + b1 * 2 ^ 16 + b2 * 2 ^ 8 + b3) :: words fuel' bs'
  | _, _ => []
  end.

Definition compress (st : state) (block : list Z) : state :=
  add_state st (rounds K (words 16 block) st).

Fixpoint blocks (fuel : nat) (bs : list Z) (st : state) : state :=
  match fuel, bs with
  | S fuel', _ :: _ => blocks fuel' (skipn 64 bs) (compress st (firstn 64 bs))
  | _, _ => st
  end.

(** The message, 0x80, zeros up to 56 mod 64, the bit length on 8 bytes. *)
Definition pad (bs : list Z) : list Z :=
  let len := Z.of_nat (length bs) in
  let bits := 8 * len in
  bs ++ [0x80] ++ repeat 0 (Z.to_nat ((55 - len) mod 64))
     ++ map (fun i => Z.shiftr bits (8 * i) mod 256) [7; 6; 5; 4; 3; 2; 1; 0].

Definition digest (bs : list Z) : state :=
  let p := pad bs in
  blocks (length p) p H0.

Definition hexdigit (n : Z) : ascii :=
  ascii_of_N (Z.to_N (if n <? 10 then 48 + n else 87 + n)).

Definition hex8 (w : Z) : list ascii :=
  map (fun i => hexdigit (Z.shiftr w (4 * i) mod 16)) [7; 6; 5; 4; 3; 2; 1; 0].

Definition hex_of_state (st : state) : list ascii :=
  let '(a, b, c, d, e, f, g, h) := st in
  hex8 a ++ hex8 b ++ hex8 c ++ hex8 d ++ hex8 e ++ hex8 f ++ hex8 g ++ hex8 h.

(** A character of a hex digest. *)
Definition is_hex_char (c : ascii) : bool :=
  existsb (Ascii.eqb c) (list_ascii_of_string "0123456789abcdef").

(** [s] could be the text of a digest: 64 lowercase hex digits. *)
Definition is_hexdigest (s : string) : bool :=
  Nat.eqb (String.length s) 64 && forallb is_hex_char (list_ascii_of_string s).

Definition utf8_bytes (s : string) : list Z :=
  map (fun c => Z.of_N (N_of_ascii c)) (list_ascii_of_string s).

(** [hashlib.sha256(bytes(s, encoding="utf-8")).hexdigest()] *)
Definition sha256_hexdigest (s : string) : string :=
  string_of_list_ascii (hex_of_state (digest (utf8_bytes s))).

End SHA256.

(** ** jwt.decode

    The cookie holds a compact JWT.  It is kept here as what the verifier
    reads off it: whether it parses, the algorithm its header names, the
    key its signature was made with, whether it carries an [exp] claim that
    lies in the past, and its claims.  [decode] raises what PyJWT raises,
    in PyJWT's order: parsing, algorithm, signature, claims. *)

Module Jwt.

Record Token : Type := mkToken {
  tok_wellformed : bool;
  tok_alg : string;
  tok_key : string;
  tok_expired : bool;
  tok_claims : dict value
}.

Definition decode (t : Token) (key : string) (algorithms : list string)
    : result (dict value) :=
  if negb (tok_wellformed t) then Raise DecodeError
  else if negb (existsb (String.eqb (tok_alg t)) algorithms)
  then Raise InvalidAlgorithmError
  else if negb (String.eqb (tok_key t) key) then Raise InvalidSignatureError
  else if tok_expired t then Raise ExpiredSignatureError
  else Ret (tok_claims t).

End Jwt.

(** ** The user table behind [db_engine] *)

Module Db.

Definition table : Type := list UserModel.

Inductive cmp : Type := CmpEq | CmpGe.

(** A SELECT under construction: its WHERE conjuncts and its LIMIT. *)
Record select : Type := mkSelect {
  sel_where : list (string * cmp * value);
  sel_limit : option value
}.

(** [db_engine.select(user_table).select_from(user_table)] *)
Definition select_from : select := mkSelect [] None.

(** [query.where(user_table.c.<c> <op> v)] *)
Definition where_ (q : select) (c : string) (op : cmp) (v : value) : select :=
  mkSelect (sel_where q ++ [(c, op, v)])%list (sel_limit q).

(** [query.limit(n)] *)
Definition limit (q : select) (n : value) : select :=
  mkSelect (sel_where q) (Some n).

Definition holds (r : UserModel) (cond : string * cmp * value) : bool :=
  let '(c, op, v) := cond in
  match column r c with
  | Some x =>
      match op with
      | CmpEq => value_eqb x v
      | CmpGe => value_geb x v
      end
  | None => false
  end.

Definition matching (conds : list (string * cmp * value)) (t : table)
    : list UserModel :=
  filter (fun r => forallb (holds r) conds) t.

(** [db_engine.session.execute(query)]: the rows in table order, the
    LIMIT (an integer in every query of the routes) applied after the
    WHERE clauses. *)
Definition execute (t : table) (q : select) : list UserModel :=
  let rows := matching (sel_where q) t in
  match sel_limit q with
  | Some v =>
      match as_int v with
      | Some n => firstn (Z.to_nat n) rows
      | None => rows
      end
  | None => rows
  end.

(** [selection.fetchone()]: the next row, or [None] when there is none.
    It does not raise [NoResultFound]. *)
Definition fetchone (sel : list UserModel) : result (option UserModel) :=
  Ret (hd_error sel).

(** [row[c]] for a row that may be [None]. *)
Definition getitem (row : option UserModel) (c : string) : result value :=
  match row with
  | None => Raise TypeError
  | Some r =>
      match column r c with
      | Some v => Ret v
      | None => Raise (NoSuchColumnError c)
      end
  end.

(** [row[i]], columns in declaration order. *)
Definition getindex (row : option UserModel) (i : nat) : result value :=
  match row, nth_error columns i with
  | None, _ => Raise TypeError
  | Some _, None => Raise IndexError
  | Some _, Some c => getitem row c
  end.

(** [select([func.count()]) ... .scalar()] *)
Definition count (t : table) (conds : list (string * cmp * value)) : Z :=
  Z.of_nat (length (matching conds t)).

(** The primary key given to a new row. *)
Definition next_id (t : table) : Z :=
  1 + fold_right Z.max 0 (map user_id t).

Definition mail_taken (t : table) (m : string) : bool :=
  existsb (fun r => String.eqb (user_mail r) m) t.

(** [session.add(user); session.commit()]: [user_mail] is UNIQUE. *)
Definition insert (t : table) (name pass mail : string) (role : UserRole)
    : result table :=
  if mail_taken t mail then Raise IntegrityError
  else Ret (t ++ [mkUser (next_id t) name pass mail role])%list.

(** One assignment of an UPDATE on one row.  NULL into a NOT NULL column
    is an [IntegrityError]. *)
Definition assign (r : UserModel) (kv : string * value) : result UserModel :=
  let '(c, v) := kv in
  match v with
  | VNone => Raise IntegrityError
  | _ =>
      if String.eqb c "user_id" then
        match v with
        | VInt n => Ret (mkUser n (user_name r) (user_pass r) (user_mail r) (user_role r))
        | _ => Raise StatementError
        end
      else if String.eqb c "user_name" then
        match v with
        | VStr x => Ret (mkUser (user_id r) x (user_pass r) (user_mail r) (user_role r))
        | _ => Raise StatementError
        end
      else if String.eqb c "user_pass" then
        match v with
        | VStr x => Ret (mkUser (user_id r) (user_name r) x (user_mail r) (user_role r))
        | _ => Raise StatementError
        end
      else if String.eqb c "user_mail" then
        match v with
        | VStr x => Ret (mkUser (user_id r) (user_name r) (user_pass r) x (user_role r))
        | _ => Raise StatementError
        end
      else if String.eqb c "user_role" then
        match v with
        | VRole x => Ret (mkUser (user_id r) (user_name r) (user_pass r) (user_mail r) x)
        | _ => Raise StatementError
        end
      else Raise CompileError
  end.

Fixpoint assign_all (r : UserModel) (values : dict value) : result UserModel :=
  match values with
  | [] => Ret r
  | kv :: values' => r' <- assign r kv ;; assign_all r' values'
  end.

Fixpoint update_rows (t : table) (cond : string * cmp * value)
    (values : dict value) : result (table * Z) :=
  match t with
  | [] => Ret ([], 0)
  | r :: t' =>
      if holds r cond then
        r' <- assign_all r values ;;
        rest <- update_rows t' cond values ;;
        Ret (r' :: fst rest, 1 + snd rest)
      else
        rest <- update_rows t' cond values ;;
        Ret (r :: fst rest, snd rest)
  end.

Fixpoint distinct (l : list string) : bool :=
  match l with
  | [] => true
  | x :: l' => negb (existsb (String.eqb x) l') && distinct l'
  end.

(** [update(user_table).where(cond).values(values)], executed and
    committed: the new table and the rowcount. *)
Definition update (t : table) (cond : string * cmp * value)
    (values : dict value) : result (table * Z) :=
  if negb (forallb (fun kv => is_column (fst kv)) values)
  then Raise CompileError
  else
    res <- update_rows t cond values ;;
    if distinct (map user_mail (fst res)) || (snd res =? 0)
    then Ret res
    else Raise IntegrityError.

(** [delete(user_table).where(cond)], executed and committed. *)
Definition delete (t : table) (cond : string * cmp * value) : table * Z :=
  (filter (fun r => negb (holds r cond)) t,
   Z.of_nat (length (filter (fun r => holds r cond) t))).

End Db.

(** ** flask / flask_restful *)

Module Http.

Inductive body : Type :=
| Json (d : dict value)                   (* jsonify(dict(...)) *)
| JsonUsers (d : list (Z * dict value))   (* jsonify(result), keyed by id *)
| ArgumentError (arg help : string).      (* reqparse's abort(400) *)

Record Response : Type := mkResponse {
  status : Z;
  payload : body
}.

(** [make_response(jsonify(dict(message=m)), code)] *)
Definition message (m : string) (code : Z) : Response :=
  mkResponse code (Json [("message", VStr m)]).

(** A request argument after its [type=] conversion was tried. *)
Inductive raw (A : Type) : Type :=
| Absent                 (* the client sent no such argument *)
| Given (v : A)          (* the conversion returned [v] *)
| Invalid.               (* the conversion raised [ValueError] *)
Arguments Absent {A}.
Arguments Given {A} v.
Arguments Invalid {A}.

(** [parser.add_argument(name, type=int, default=d, help=h)] *)
Definition arg_int (name help : string) (default : value) (a : raw Z)
    : Response + value :=
  match a with
  | Absent => inr default
  | Given n => inr (VInt n)
  | Invalid => inl (mkResponse 400 (ArgumentError name help))
  end.

(** [type=str] never fails. *)
Definition arg_str (default : value) (a : option string) : value :=
  match a with
  | None => default
  | Some x => VStr x
  end.

(** [type=lambda x: UserRole(int(x))] *)
Definition arg_role (name help : string) (default : value) (a : raw Z)
    : Response + value :=
  match a with
  | Absent => inr default
  | Given n =>
      match UserRole_of_int n with
      | Some r => inr (VRole r)
      | None => inl (mkResponse 400 (ArgumentError name help))
      end
  | Invalid => inl (mkResponse 400 (ArgumentError name help))
  end.

(** [required=True] *)
Definition required (name help : string) (v : Response + value)
    : Response + value :=
  match v with
  | inr VNone => inl (mkResponse 400 (ArgumentError name help))
  | _ => v
  end.

Definition andthen {A B : Type} (c : Response + A) (k : A -> Response + B)
    : Response + B :=
  match c with
  | inl r => inl r
  | inr v => k v
  end.

(** What the client sees: an exception that leaves the handler is
    answered with 500. *)
Definition status_of (r : result Response) : Z :=
  match r with
  | Ret resp => status resp
  | Raise _ => 500
  end.

(** The answer of a handler that also writes to the store. *)
Definition response_of {S : Type} (r : result (S * Response)) : result Response :=
  x <- r ;; Ret (snd x).

End Http.

(** ** backend.lib.core.config

    The module is not among the sources; its two constants that the routes
    read are parameters. *)

Module Config.

Record t : Type := mkConfig {
  JWT_SECRET : string;
  MAX_ITEMS_RETURNED : Z
}.

End Config.

(** ** backend/lib/routes/user.py *)

Module UserResource.

Import Http.

(** The query string of GET /user. *)
Record GetQuery : Type := mkGetQuery {
  get_user_id : raw Z;
  get_user_name : option string;
  get_user_mail : option string;
  get_user_role : raw Z;
  get_user_offset : raw Z;
  get_user_limit : raw Z
}.

(** The body of POST /user and of PUT /user. *)
Record Body : Type := mkBody {
  body_user_id : raw Z;
  body_user_name : option string;
  body_user_pass : option string;
  body_user_mail : option string;
  body_user_role : raw Z
}.

(** [x in range(n)] *)
Definition in_range (x : value) (n : Z) : bool :=
  match as_int x with
  | Some i => (0 <=? i) && (i <? n)
  | None => false
  end.

(** [str] argument of a constructor or of [bytes(..., encoding=...)]. *)
Definition as_str (v : value) : result string :=
  match v with
  | VStr x => Ret x
  | _ => Raise TypeError
  end.

(** [user_role if isinstance(user_role, UserRole) else UserRole(user_role)] *)
Definition as_role (v : value) : result UserRole :=
  match v with
  | VRole r => Ret r
  | VInt n =>
      match UserRole_of_int n with
      | Some r => Ret r
      | None => Raise ValueError
      end
  | _ => Raise ValueError
  end.

(** An integer inside an f-string. *)
Definition format_value (v : value) : string :=
  match v with
  | VNone => "None"
  | VBool true => "True"
  | VBool false => "False"
  | VInt n => str_of_int n
  | VStr x => x
  | VRole r => str_of_int (UserRole_value r)
  end.

(** One entry of the GET result. *)
Definition user_json (row : UserModel) : dict value :=
  [("user_id", VInt (user_id row));
   ("user_name", VStr (user_name row));
   ("user_mail", VStr (user_mail row));
   ("user_role", VStr (UserRole_name (user_role row)))].

Section WithConfig.

Variable config : Config.t.

(** [UserResource._authorize(token, user_id=None, change_admin=False)] *)
Definition _authorize (db : Db.table) (token : Jwt.Token)
    (user_id change_admin : value) : result bool :=
  try_except_else
    (Jwt.decode token (Config.JWT_SECRET config) ["HS256"])
    is_DecodeError (Ret false)
    (fun user_data =>
       uid <- dict_getitem user_data "user_id" ;;
       let query := Db.where_ Db.select_from "user_id" Db.CmpEq uid in
       let selection := Db.execute db query in
       try_except_else (Db.fetchone selection) is_NoResultFound (Ret false)
         (fun row =>
            role <- Db.getitem row "user_role" ;;
            if value_eqb role (VRole SAdmin) then Ret true
            else
              role' <- Db.getitem row "user_role" ;;
              if value_eqb role' (VRole Admin) then Ret true
              else if value_eqb user_id VNone then Ret false
              else
                rid <- Db.getitem row "user_id" ;;
                Ret (value_eqb user_id rid && negb (truthy change_admin)))).

(** The parser of [get]. *)
Definition parse_get (q : GetQuery) : Response + dict value :=
  andthen (arg_int "user_id" "ID of the user is missing" (VInt 0) (get_user_id q))
    (fun user_id =>
  let user_name := arg_str (VStr "") (get_user_name q) in
  let user_mail := arg_str (VStr "") (get_user_mail q) in
  andthen (arg_role "user_role" "User Role is missing" (VRole User) (get_user_role q))
    (fun user_role =>
  andthen (arg_int "user_offset" "Start index is missing" (VInt 0) (get_user_offset q))
    (fun user_offset =>
  andthen (arg_int "user_limit" "Page size is missing"
             (VInt (Config.MAX_ITEMS_RETURNED config)) (get_user_limit q))
    (fun user_limit =>
  inr [("user_id", user_id); ("user_name", user_name); ("user_mail", user_mail);
       ("user_role", user_role); ("user_offset", user_offset);
       ("user_limit", user_limit)])))).

(** Lines 72-99 of [get]: compose the query, run it, build the result. *)
Definition get_select (db : Db.table) (args : dict value) : result Response :=
  let query := Db.select_from in
  user_id <- dict_getitem args "user_id" ;;
  query <-
    (if truthy user_id then Ret (Db.where_ query "user_id" Db.CmpEq user_id)
     else
       user_offset <- dict_getitem args "user_offset" ;;
       user_limit <- dict_getitem args "user_limit" ;;
       Ret (Db.limit (Db.where_ query "user_id" Db.CmpGe user_offset) user_limit)) ;;
  user_name <- dict_getitem args "user_name" ;;
  let query :=
    if truthy user_name then Db.where_ query "user_name" Db.CmpEq user_name
    else query in
  user_mail <- dict_getitem args "user_mail" ;;
  let query :=
    if truthy user_mail then Db.where_ query "user_mail" Db.CmpEq user_mail
    else query in
  user_role <- dict_getitem args "user_role" ;;
  let query :=
    if truthy user_role then Db.where_ query "user_role" Db.CmpEq user_role
    else query in
  let selection := Db.execute db query in
  let result :=
    fold_left (fun result row => zdict_set result (Models.user_id row) (user_json row))
              selection [] in
  Ret (mkResponse 200 (JsonUsers result)).

(** [UserResource.get] *)
Definition get (db : Db.table) (cookies : dict Jwt.Token) (q : GetQuery)
    : result Response :=
  match parse_get q with
  | inl r => Ret r
  | inr args =>
      user_limit <- dict_getitem args "user_limit" ;;
      if negb (in_range user_limit (Config.MAX_ITEMS_RETURNED config + 1)) then
        Ret (mkResponse 400
               (Json [("message", VStr "Page limit not in range");
                      ("min_limit", VInt 0);
                      ("max_limit", VInt (Config.MAX_ITEMS_RETURNED config))]))
      else if negb (dict_contains cookies "token") then
        Ret (message "Login required" 401)
      else
        token <- dict_getitem cookies "token" ;;
        user_id <- dict_getitem args "user_id" ;;
        ok <- _authorize db token user_id (VBool false) ;;
        if negb ok then Ret (message "No Access" 403)
        else get_select db args
  end.

(** The parser of [post]: four required arguments. *)
Definition parse_post (b : Body) : Response + dict value :=
  andthen (required "user_name" "Name of the user is missing"
             (inr (arg_str VNone (body_user_name b))))
    (fun user_name =>
  andthen (required "user_pass" "Credentials of the user are missing"
             (inr (arg_str VNone (body_user_pass b))))
    (fun user_pass =>
  andthen (required "user_mail" "Mail of the user is missing"
             (inr (arg_str VNone (body_user_mail b))))
    (fun user_mail =>
  andthen (required "user_role" "User role is missing"
             (arg_role "user_role" "User role is missing" VNone (body_user_role b)))
    (fun user_role =>
  inr [("user_name", user_name); ("user_pass", user_pass);
       ("user_mail", user_mail); ("user_role", user_role)])))).

(** Lines 130-174 of [post]: the duplicate check, the insertion, the
    read back. *)
Definition post_create (db : Db.table) (args : dict value)
    : result (Db.table * Response) :=
  user_name <- dict_getitem args "user_name" ;;
  if Db.count db [("user_name", Db.CmpEq, user_name)] =? 0 then
    name <- as_str user_name ;;
    user_pass <- dict_getitem args "user_pass" ;;
    pass <- as_str user_pass ;;
    user_mail <- dict_getitem args "user_mail" ;;
    mail <- as_str user_mail ;;
    user_role <- dict_getitem args "user_role" ;;
    role <- as_role user_role ;;
    db' <- Db.insert db name (SHA256.sha256_hexdigest pass) mail role ;;
    let query := Db.where_ Db.select_from "user_name" Db.CmpEq user_name in
    let selection := Db.execute db' query in
    try_except_else (Db.fetchone selection) is_NoResultFound
      (Ret (db', message "An error occurred while creating the user" 500))
      (fun row =>
         row0 <- Db.getindex row 0 ;;
         row1 <- Db.getindex row 1 ;;
         row3 <- Db.getindex row 3 ;;
         Ret (db', mkResponse 201
                     (Json [("message", VStr "The user was created successfully");
                            ("user_id", row0); ("user_name", row1);
                            ("user_mail", row3)])))
  else
    Ret (db, message "A user with this name already exists" 409).

(** [UserResource.post] *)
Definition post (db : Db.table) (cookies : dict Jwt.Token) (b : Body)
    : result (Db.table * Response) :=
  match parse_post b with
  | inl r => Ret (db, r)
  | inr args =>
      user_role <- dict_getitem args "user_role" ;;
      if value_eqb user_role (VRole SAdmin) || value_eqb user_role (VRole Admin) then
        if negb (dict_contains cookies "token") then
          Ret (db, message "Login required" 401)
        else
          token <- dict_getitem cookies "token" ;;
          ok <- _authorize db token VNone (VBool true) ;;
          if negb ok then Ret (db, message "No Access" 403)
          else post_create db args
      else post_create db args
  end.

(** The parser of [put]: [user_id] required, the rest optional and
    [None] when absent. *)
Definition parse_put (b : Body) : Response + dict value :=
  andthen (required "user_id" "ID of the user is missing"
             (arg_int "user_id" "ID of the user is missing" VNone (body_user_id b)))
    (fun user_id =>
  let user_name := arg_str VNone (body_user_name b) in
  let user_pass := arg_str VNone (body_user_pass b) in
  let user_mail := arg_str VNone (body_user_mail b) in
  andthen (arg_role "user_role" "User role is missing" VNone (body_user_role b))
    (fun user_role =>
  inr [("user_id", user_id); ("user_name", user_name); ("user_pass", user_pass);
       ("user_mail", user_mail); ("user_role", user_role)])).

(** Lines 201-218 of [put]: the UPDATE and its answer. *)
Definition put_update (db : Db.table) (args : dict value)
    : result (Db.table * Response) :=
  values <- dict_del args "user_id" ;;
  user_id <- dict_getitem args "user_id" ;;
  res <- Db.update db ("user_id", Db.CmpEq, user_id) values ;;
  if snd res =? 0 then
    Ret (fst res,
         message ("User with user_id " ++ format_value user_id ++ " does not exist") 404)
  else
    Ret (fst res,
         message ("Successfully changed user with user_id " ++ format_value user_id) 200).

(** [UserResource.put] *)
Definition put (db : Db.table) (cookies : dict Jwt.Token) (b : Body)
    : result (Db.table * Response) :=
  match parse_put b with
  | inl r => Ret (db, r)
  | inr args =>
      if negb (dict_contains cookies "token") then
        Ret (db, message "Login required" 401)
      else
        token <- dict_getitem cookies "token" ;;
        user_id <- dict_getitem args "user_id" ;;
        user_admin <- dict_getitem args "user_admin" ;;
        ok <- _authorize db token user_id user_admin ;;
        if negb ok then Ret (db, message "No Access" 403)
        else put_update db args
  end.

(** The parser of [delete]. *)
Definition parse_delete (b : Body) : Response + dict value :=
  andthen (required "user_id" "ID of the user is missing"
             (arg_int "user_id" "ID of the user is missing" VNone (body_user_id b)))
    (fun user_id => inr [("user_id", user_id)]).

(** [UserResource.delete] *)
Definition delete (db : Db.table) (cookies : dict Jwt.Token) (b : Body)
    : result (Db.table * Response) :=
  match parse_delete b with
  | inl r => Ret (db, r)
  | inr args =>
      if negb (dict_contains cookies "token") then
        Ret (db, message "Login required" 401)
      else
        token <- dict_getitem cookies "token" ;;
        user_id <- dict_getitem args "user_id" ;;
        ok <- _authorize db token user_id (VBool false) ;;
        if negb ok then Ret (db, message "No Access" 403)
        else
          let res := Db.delete db ("user_id", Db.CmpEq, user_id) in
          if snd res =? 0 then
            Ret (fst res,
                 message ("User with user_id " ++ format_value user_id
                          ++ " does not exist") 404)
          else
            Ret (fst res,
                 message ("Successfully deleted user with user_id "
                          ++ format_value user_id) 200)
  end.

End WithConfig.

End UserResource.

(** ** backend/lib/routes/exercise.py *)

Module ExerciseResource.

Import Http.

Section WithConfig.

Variable config : Config.t.

(** [ExerciseResource._authorize(token, readOnly)].  It returns
    [row["user_admin"]] as it is; the handlers test its truth value. *)
Definition _authorize (db : Db.table) (token : Jwt.Token) (readOnly : bool)
    : result value :=
  try_except_else
    (Jwt.decode token (Config.JWT_SECRET config) ["HS256"])
    is_DecodeError (Ret (VBool false))
    (fun user_data =>
       uid <- dict_getitem user_data "user_id" ;;
       let query := Db.where_ Db.select_from "user_id" Db.CmpEq uid in
       let selection := Db.execute db query in
       try_except_else (Db.fetchone selection) is_NoResultFound (Ret (VBool false))
         (fun row =>
            if readOnly then Ret (VBool true)
            else Db.getitem row "user_admin")).

(** The opening of [get], [post], [put] and [delete]: the cookie check
    and the access check.  [None] lets the handler go on to its store
    operation; [get] asks with [readOnly = True], the other three with
    [False]. *)
Definition access (db : Db.table) (cookies : dict Jwt.Token) (readOnly : bool)
    : result (option Response) :=
  if negb (dict_contains cookies "token") then
    Ret (Some (message "Login required" 401))
  else
    token <- dict_getitem cookies "token" ;;
    ok <- _authorize db token readOnly ;;
    if negb (truthy ok) then Ret (Some (message "No Access" 403))
    else Ret None.

(** The query string of GET /exercise. *)
Record GetQuery : Type := mkGetQuery {
  get_exercise_id : raw Z;
  get_exercise_title : option string;
  get_exercise_description : option string;
  get_exercise_type : option string;
  get_exercise_content : option string
}.

(** The parser of [get]: every argument optional, [None] when absent;
    [exercise_type] is read as text. *)
Definition parse_get (q : GetQuery) : Response + dict value :=
  andthen (arg_int "exercise_id" "ID of the exercise is missing" VNone (get_exercise_id q))
    (fun exercise_id =>
  inr [("exercise_id", exercise_id);
       ("exercise_title", arg_str VNone (get_exercise_title q));
       ("exercise_description", arg_str VNone (get_exercise_description q));
       ("exercise_type", arg_str VNone (get_exercise_type q));
       ("exercise_content", arg_str VNone (get_exercise_content q))]).

(** [x < 1] for an integer argument. *)
Definition below_one (x : value) : bool :=
  match as_int x with
  | Some n => n <? 1
  | None => false
  end.

(** [l[0:n]] *)
Definition slice_to {A : Type} (l : list A) (n : Z) : list A :=
  if n <? 0 then firstn (length l - Z.to_nat (- n)) l
  else firstn (Z.to_nat n) l.

(** [str(row["exercise_type"])] depends on the Python version (the member's
    qualified name up to 3.10, its number from 3.11 on); it is a
    parameter. *)
Variable str_of_type : ExerciseType -> string.

(** One entry of the GET result. *)
Definition exercise_json (row : ExerciseModel) : dict value :=
  [("exercise_id", VInt (exercise_id row));
   ("exercise_title", VStr (exercise_title row));
   ("exercise_description", nullable (exercise_description row));
   ("exercise_type", VStr (str_of_type (exercise_type row)));
   ("exercise_content", nullable (exercise_content row))].

(** Lines 45-78 of [get]: compose the query, run it, build the result and
    cut it to [MAX_ITEMS_RETURNED] entries. *)
Definition get_select (exercises : list ExerciseModel) (args : dict value)
    : result Response :=
  let query : list (string * value) := [] in
  exercise_id <- dict_getitem args "exercise_id" ;;
  let query :=
    if truthy exercise_id then
      if below_one exercise_id then query
      else (query ++ [("exercise_id", exercise_id)])%list
    else query in
  exercise_title <- dict_getitem args "exercise_title" ;;
  let query :=
    if truthy exercise_title
    then (query ++ [("exercise_title", exercise_title)])%list else query in
  exercise_description <- dict_getitem args "exercise_description" ;;
  let query :=
    if truthy exercise_description
    then (query ++ [("exercise_description", exercise_description)])%list else query in
  exercise_type <- dict_getitem args "exercise_type" ;;
  let query :=
    if truthy exercise_type
    then (query ++ [("exercise_type", exercise_type)])%list else query in
  exercise_content <- dict_getitem args "exercise_content" ;;
  let query :=
    if truthy exercise_content
    then (query ++ [("exercise_content", exercise_content)])%list else query in
  let selection := exercise_select exercises query in
  let result :=
    fold_left (fun result row =>
                 zdict_set result (ExerciseModels.exercise_id row) (exercise_json row))
              selection [] in
  let result :=
    if Z.of_nat (length result) >? Config.MAX_ITEMS_RETURNED config
    then slice_to result (Config.MAX_ITEMS_RETURNED config)
    else result in
  Ret (mkResponse 200 (JsonUsers result)).

(** [ExerciseResource.get]; the result, keyed by id, travels in the same
    body constructor as the result of the user resource. *)
Definition get (exercises : list ExerciseModel) (db : Db.table)
    (cookies : dict Jwt.Token) (q : GetQuery) : result Response :=
  match parse_get q with
  | inl r => Ret r
  | inr args =>
      denied <- access db cookies true ;;
      match denied with
      | Some r => Ret r
      | None => get_select exercises args
      end
  end.

(** The parser of [delete]: [exercise_id] is required. *)
Definition parse_delete (exercise_id : raw Z) : Response + dict value :=
  andthen (required "exercise_id" "ID of the exercise is missing"
             (arg_int "exercise_id" "ID of the exercise is missing" VNone exercise_id))
    (fun exercise_id => inr [("exercise_id", exercise_id)]).

(** [ExerciseResource.delete] *)
Definition delete (exercises : list ExerciseModel) (db : Db.table)
    (cookies : dict Jwt.Token) (exercise_id : raw Z)
    : result (list ExerciseModel * Response) :=
  match parse_delete exercise_id with
  | inl r => Ret (exercises, r)
  | inr args =>
      denied <- access db cookies false ;;
      match denied with
      | Some r => Ret (exercises, r)
      | None =>
          exercise_id <- dict_getitem args "exercise_id" ;;
          let gone := exercise_select exercises [("exercise_id", exercise_id)] in
          let kept :=
            filter (fun r => negb (exercise_holds r ("exercise_id", exercise_id)))
                   exercises in
          if Z.of_nat (length gone) =? 0 then
            Ret (kept,
                 message ("Exercise with exercise_id " ++ UserResource.format_value exercise_id
                          ++ " does not exist") 404)
          else
            Ret (kept,
                 message ("Successfully deleted exercise with exercise_id "
                          ++ UserResource.format_value exercise_id) 200)
      end
  end.

End WithConfig.

End ExerciseResource.

(** ** A small deployment, for the concrete runs below *)

Module Scenario.

Import Http.

Definition cfg : Config.t := Config.mkConfig "s3cret" 20.

Definition root : UserModel :=
  mkUser 1 "root" (SHA256.sha256_hexdigest "toor") "root@example.com" SAdmin.
Definition alice : UserModel :=
  mkUser 2 "Alice" (SHA256.sha256_hexdigest "wonderland") "alice@example.com" User.
Definition bob : UserModel :=
  mkUser 3 "Bob" (SHA256.sha256_hexdigest "builder") "bob@example.com" User.
Definition carol : UserModel :=
  mkUser 4 "Carol" (SHA256.sha256_hexdigest "christmas") "carol@example.com" Admin.

Definition db : Db.table := [root; alice; bob; carol].

(** A token as the login route would issue it for user [uid]. *)
Definition token_of (uid : Z) : Jwt.Token :=
  Jwt.mkToken true "HS256" "s3cret" false [("user_id", VInt uid)].

(** The same token once its [exp] claim has passed. *)
Definition expired_token_of (uid : Z) : Jwt.Token :=
  Jwt.mkToken true "HS256" "s3cret" true [("user_id", VInt uid)].

(** A token whose header names another algorithm; anyone can write one. *)
Definition hs512_token : Jwt.Token :=
  Jwt.mkToken true "HS512" "guess" false [("user_id", VInt 1)].

(** A correctly signed token without a [user_id] claim. *)
Definition anonymous_token : Jwt.Token :=
  Jwt.mkToken true "HS256" "s3cret" false [("sub", VInt 2)].

Definition forged_token : Jwt.Token :=
  Jwt.mkToken true "HS256" "guess" false [("user_id", VInt 1)].

Definition garbage_token : Jwt.Token :=
  Jwt.mkToken false "" "" false [].

Definition cookie (t : Jwt.Token) : dict Jwt.Token := [("token", t)].

Definition no_query : UserResource.GetQuery :=
  UserResource.mkGetQuery Absent None None Absent Absent Absent.

Definition by_id (uid : Z) : UserResource.GetQuery :=
  UserResource.mkGetQuery (Given uid) None None Absent Absent Absent.

(** [?user_limit=21], one more than the configured maximum. *)
Definition oversized_page : UserResource.GetQuery :=
  UserResource.mkGetQuery Absent None None Absent Absent (Given 21).

(** PUT /user [{"user_id": 2, "user_role": 2}]: Alice makes herself Admin. *)
Definition promote_alice : UserResource.Body :=
  UserResource.mkBody (Given 2) None None None (Given 2).

(** PUT /user [{"user_id": 2}]: no field to change. *)
Definition touch_alice : UserResource.Body :=
  UserResource.mkBody (Given 2) None None None Absent.

(** What the parser of [put] makes of [touch_alice]. *)
Definition touch_alice_args : dict value :=
  [("user_id", VInt 2); ("user_name", VNone); ("user_pass", VNone);
   ("user_mail", VNone); ("user_role", VNone)].

(** POST /user for a new Admin account. *)
Definition new_admin_dave : UserResource.Body :=
  UserResource.mkBody Absent (Some "Dave") (Some "pw") (Some "dave@example.com") (Given 2).

Definition dave : UserModel :=
  mkUser 5 "Dave" (SHA256.sha256_hexdigest "pw") "dave@example.com" Admin.

Definition db_with_dave : Db.table := [root; alice; bob; carol; dave].

(** Two exercises, the second without description. *)
Definition gap_text : ExerciseModel :=
  mkExercise 1 "Fill the gap" (Some "Complete the loop") GapTextExercise
    (Some "for i in ___:") (Some "range(10)") Python.
Definition find_bug : ExerciseModel :=
  mkExercise 2 "Find the bug" None FindTheBugExercise
    (Some "int x = 1 / 0;") (Some "division by zero") Java.

Definition exercises : list ExerciseModel := [gap_text; find_bug].

(** [str] of an [IntEnum] member from Python 3.11 on. *)
Definition str_of_type (t : ExerciseType) : string :=
  str_of_int (ExerciseType_value t).

Definition all_exercises : ExerciseResource.GetQuery :=
  ExerciseResource.mkGetQuery Absent None None None None.

(** A deployment that returns at most one item. *)
Definition cfg1 : Config.t := Config.mkConfig "s3cret" 1.

(** POST /user bodies. *)
Definition new_user_erin : UserResource.Body :=
  UserResource.mkBody Absent (Some "Erin") (Some "pw") (Some "erin@example.com") (Given 3).

Definition erin : UserModel :=
  mkUser 5 "Erin" (SHA256.sha256_hexdigest "pw") "erin@example.com" User.

(** A second Alice, and an Erin who gives Bob's address. *)
Definition another_alice : UserResource.Body :=
  UserResource.mkBody Absent (Some "Alice") (Some "pw") (Some "alice2@example.com") (Given 3).
Definition erin_with_bobs_mail : UserResource.Body :=
  UserResource.mkBody Absent (Some "Erin") (Some "pw") (Some "bob@example.com") (Given 3).

(** DELETE /user bodies. *)
Definition delete_user (uid : Z) : UserResource.Body :=
  UserResource.mkBody (Given uid) None None None Absent.

(** PUT /user [{"user_id": 2, "user_name": "Al", "user_pass": "hunter2",
    "user_mail": "al@example.com", "user_role": 3}]. *)
Definition rename_alice : UserResource.Body :=
  UserResource.mkBody (Given 2) (Some "Al") (Some "hunter2") (Some "al@example.com") (Given 3).

Definition rename_alice_args : dict value :=
  [("user_id", VInt 2); ("user_name", VStr "Al"); ("user_pass", VStr "hunter2");
   ("user_mail", VStr "al@example.com"); ("user_role", VRole User)].

End Scenario.

(** * Properties *)

Import Http.

(** ** The store *)

Lemma fetchone_total (sel : list UserModel) :
  Db.fetchone sel = Ret (hd_error sel).
Proof. reflexivity. Qed.

Lemma fetchone_no_row : Db.fetchone [] = Ret None.
Proof. reflexivity. Qed.

Lemma hd_error_In {A : Type} (l : list A) (x : A) :
  hd_error l = Some x -> In x l.
Proof.
  destruct l as [|y l]; simpl; intros H; [discriminate|].
  injection H as ->. now left.
Qed.

Lemma matching_In (conds : list (string * Db.cmp * value)) (t : Db.table) (r : UserModel) :
  In r (Db.matching conds t) <-> In r t /\ forallb (Db.holds r) conds = true.
Proof. unfold Db.matching. apply filter_In. Qed.

Lemma firstn_In {A : Type} (n : nat) (l : list A) (x : A) :
  In x (firstn n l) -> In x l.
Proof.
  revert l; induction n as [|n IH]; intros [|y l]; simpl; try tauto.
  intros [->|H]; [now left|right; now apply IH].
Qed.

Lemma execute_In (t : Db.table) (q : Db.select) (r : UserModel) :
  In r (Db.execute t q) ->
  In r t /\ forallb (Db.holds r) (Db.sel_where q) = true.
Proof.
  unfold Db.execute. intros H. apply matching_In.
  destruct (Db.sel_limit q) as [v|]; [|exact H].
  destruct (as_int v); [|exact H].
  eapply firstn_In; eassumption.
Qed.

(** The row that [_authorize] reads for the id [c] carries the id [c]. *)
Lemma select_by_id_row (t : Db.table) (c : Z) (row : UserModel) :
  Db.fetchone (Db.execute t (Db.where_ Db.select_from "user_id" Db.CmpEq (VInt c)))
    = Ret (Some row) ->
  In row t /\ user_id row = c.
Proof.
  intros H. injection H as H. apply hd_error_In, execute_In in H.
  destruct H as [Hin Hc]. split; [exact Hin|].
  simpl in Hc. rewrite andb_true_r in Hc. now apply Z.eqb_eq in Hc.
Qed.

(** ** The decision of the user resource *)

Section Caller.

Variable config : Config.t.
Variable db : Db.table.
Variable token : Jwt.Token.
Variable claims : dict value.
Variable c : Z.

(** The token verifies and names the caller [c]. *)
Hypothesis Hdecode :
  Jwt.decode token (Config.JWT_SECRET config) ["HS256"] = Ret claims.
Hypothesis Hclaim : dict_get claims "user_id" = Some (VInt c).

Section Known.

Variable row : UserModel.

(** The caller's record is in the store. *)
Hypothesis Hrow :
  Db.fetchone (Db.execute db (Db.where_ Db.select_from "user_id" Db.CmpEq (VInt c)))
    = Ret (Some row).

Lemma authorize_known (user_id change_admin : value) :
  UserResource._authorize config db token user_id change_admin =
  if UserRole_eqb (user_role row) SAdmin || UserRole_eqb (user_role row) Admin
  then Ret true
  else if value_eqb user_id VNone then Ret false
  else Ret (value_eqb user_id (VInt c) && negb (truthy change_admin)).
Proof.
  destruct (select_by_id_row _ _ _ Hrow) as [_ Hid].
  unfold UserResource._authorize.
  rewrite Hdecode. cbn [try_except_else].
  unfold dict_getitem at 1. rewrite Hclaim. cbn [bind].
  rewrite Hrow. cbn [try_except_else].
  cbn [Db.getitem column String.eqb Ascii.eqb Bool.eqb bind].
  rewrite Hid.
  destruct (user_role row); reflexivity.
Qed.

(** C1.  A caller whose stored role is Admin or SAdmin is allowed,
    whatever the target (None included) and whatever [change_admin]. *)
Theorem privileged_caller_allowed :
  user_role row = SAdmin \/ user_role row = Admin ->
  forall user_id change_admin : value,
    UserResource._authorize config db token user_id change_admin = Ret true.
Proof.
  intros Hrole user_id change_admin. rewrite authorize_known.
  destruct Hrole as [-> | ->]; reflexivity.
Qed.

(** C3.  A caller of role User is denied every access, and so every
    write, that targets another id than their own. *)
Theorem unprivileged_other_denied :
  user_role row = User ->
  forall (target : Z) (change_admin : value),
    target <> c ->
    UserResource._authorize config db token (VInt target) change_admin = Ret false.
Proof.
  intros Hrole target change_admin Hne. rewrite authorize_known, Hrole.
  cbn. apply Z.eqb_neq in Hne. now rewrite Hne.
Qed.

(** A caller of role User who asks to change the admin status is denied,
    on their own record too. *)
Lemma unprivileged_change_admin_denied :
  user_role row = User ->
  forall target : value,
    UserResource._authorize config db token target (VBool true) = Ret false.
Proof.
  intros Hrole target. rewrite authorize_known, Hrole. cbn.
  destruct (value_eqb target VNone); [reflexivity|].
  now rewrite andb_false_r.
Qed.

(** A caller of role User reaches their own record. *)
Lemma unprivileged_own_allowed :
  user_role row = User ->
  UserResource._authorize config db token (VInt c) (VBool false) = Ret true.
Proof.
  intros Hrole. rewrite authorize_known, Hrole. cbn.
  now rewrite Z.eqb_refl.
Qed.

(** DELETE /user by a caller of role User on another id: 403, and the
    store is as it was. *)
Lemma delete_other_forbidden (cookies : dict Jwt.Token) (b : UserResource.Body)
    (target : Z) :
  user_role row = User ->
  dict_get cookies "token" = Some token ->
  UserResource.body_user_id b = Given target ->
  target <> c ->
  UserResource.delete config db cookies b = Ret (db, message "No Access" 403).
Proof.
  intros Hrole Hcookie Hb Hne.
  unfold UserResource.delete, UserResource.parse_delete, andthen, required, arg_int.
  rewrite Hb. unfold dict_contains, dict_getitem at 1. rewrite Hcookie.
  cbn [negb bind dict_getitem dict_get String.eqb Ascii.eqb Bool.eqb].
  rewrite authorize_known, Hrole. cbn.
  apply Z.eqb_neq in Hne. now rewrite Hne.
Qed.

End Known.

(** When the id of a verified token matches no record, [fetchone] hands
    back [None], the [except NoResultFound] clause is not entered and the
    subscript of [None] raises. *)
Lemma authorize_stale_caller (user_id change_admin : value) :
  Db.execute db (Db.where_ Db.select_from "user_id" Db.CmpEq (VInt c)) = [] ->
  UserResource._authorize config db token user_id change_admin = Raise TypeError.
Proof.
  intros Hnone. unfold UserResource._authorize.
  rewrite Hdecode. cbn [try_except_else].
  unfold dict_getitem at 1. rewrite Hclaim. cbn [bind].
  rewrite Hnone. reflexivity.
Qed.

End Caller.

(** What a failed verification becomes: [False] for [DecodeError] and its
    subclass, the exception itself for every other class. *)
Lemma authorize_decode_failure (config : Config.t) (db : Db.table) (token : Jwt.Token)
    (e : exn) (user_id change_admin : value) :
  Jwt.decode token (Config.JWT_SECRET config) ["HS256"] = Raise e ->
  UserResource._authorize config db token user_id change_admin =
  if is_DecodeError e then Ret false else Raise e.
Proof.
  intros H. unfold UserResource._authorize. now rewrite H.
Qed.

Lemma privileged_caller_allowed_witness :
  UserResource._authorize Scenario.cfg Scenario.db (Scenario.token_of 4)
    VNone (VBool true) = Ret true.
Proof.
  apply (privileged_caller_allowed Scenario.cfg Scenario.db (Scenario.token_of 4)
           [("user_id", VInt 4)] 4 eq_refl eq_refl Scenario.carol eq_refl).
  right. reflexivity.
Defined.

Lemma unprivileged_other_denied_witness :
  UserResource._authorize Scenario.cfg Scenario.db (Scenario.token_of 2)
    (VInt 3) (VBool false) = Ret false.
Proof.
  apply (unprivileged_other_denied Scenario.cfg Scenario.db (Scenario.token_of 2)
           [("user_id", VInt 2)] 2 eq_refl eq_refl Scenario.alice eq_refl eq_refl 3).
  lia.
Defined.

Lemma authorize_forged_denied (config : Config.t) (db : Db.table) (token : Jwt.Token)
    (user_id change_admin : value) :
  Jwt.tok_wellformed token = false \/
  (Jwt.tok_wellformed token = true /\ Jwt.tok_alg token = "HS256" /\
   Jwt.tok_key token <> Config.JWT_SECRET config) ->
  UserResource._authorize config db token user_id change_admin = Ret false.
Proof.
  intros [H | (Hw & Ha & Hk)].
  - rewrite (authorize_decode_failure _ _ _ DecodeError); [reflexivity|].
    unfold Jwt.decode. now rewrite H.
  - rewrite (authorize_decode_failure _ _ _ InvalidSignatureError); [reflexivity|].
    unfold Jwt.decode. rewrite Hw, Ha. cbn.
    apply String.eqb_neq in Hk. now rewrite Hk.
Qed.

(** A token signed with another key and a token that does not parse are
    both answered 403 by GET /user. *)
Example forged_token_denied :
  UserResource.get Scenario.cfg Scenario.db (Scenario.cookie Scenario.forged_token)
    (Scenario.by_id 1) = Ret (message "No Access" 403) /\
  UserResource.get Scenario.cfg Scenario.db (Scenario.cookie Scenario.garbage_token)
    (Scenario.by_id 1) = Ret (message "No Access" 403).
Proof. split; reflexivity. Qed.

(** ** The handlers of the user resource *)

(** Whatever the body, once the parser passes and a token cookie is there,
    [put] stops at [args["user_admin"]]: the parser declares no such
    argument. *)
Lemma put_raises_KeyError (config : Config.t) (db : Db.table) (cookies : dict Jwt.Token)
    (b : UserResource.Body) (args : dict value) :
  UserResource.parse_put b = inr args ->
  dict_contains cookies "token" = true ->
  UserResource.put config db cookies b = Raise (KeyError "user_admin").
Proof.
  intros Hparse Hcookie. unfold UserResource.put. rewrite Hparse, Hcookie.
  cbn [negb]. unfold dict_contains in Hcookie. unfold dict_getitem at 1.
  destruct (dict_get cookies "token") as [token|]; [|discriminate].
  cbn [bind].
  unfold UserResource.parse_put, andthen, required, arg_int, arg_role, arg_str in Hparse.
  destruct (UserResource.body_user_id b) as [|n|]; try discriminate.
  destruct (UserResource.body_user_role b) as [|r|]; try discriminate.
  - injection Hparse as <-. reflexivity.
  - destruct (UserRole_of_int r); [|discriminate].
    injection Hparse as <-. reflexivity.
Qed.

(** C2.  Alice (role User) sends PUT /user with her own id and
    [user_role = 2].  The decision for that request is False, but [put]
    raises [KeyError] before it asks for it, and the client gets 500. *)
Theorem put_own_role_raises :
  UserResource._authorize Scenario.cfg Scenario.db (Scenario.token_of 2)
    (VInt 2) (VBool true) = Ret false /\
  UserResource.put Scenario.cfg Scenario.db (Scenario.cookie (Scenario.token_of 2))
    Scenario.promote_alice = Raise (KeyError "user_admin") /\
  status_of (response_of
    (UserResource.put Scenario.cfg Scenario.db (Scenario.cookie (Scenario.token_of 2))
       Scenario.promote_alice)) = 500.
Proof. repeat split; reflexivity. Qed.

(** C4.  A verified token for the id 99, which no record carries:
    [_authorize] raises [TypeError], GET /user answers 500, where the same
    request without a cookie is answered 401. *)
Theorem stale_token_raises :
  UserResource._authorize Scenario.cfg Scenario.db (Scenario.token_of 99)
    (VInt 99) (VBool false) = Raise TypeError /\
  status_of (UserResource.get Scenario.cfg Scenario.db
               (Scenario.cookie (Scenario.token_of 99)) (Scenario.by_id 99)) = 500 /\
  status_of (UserResource.get Scenario.cfg Scenario.db [] (Scenario.by_id 99)) = 401.
Proof. repeat split; reflexivity. Qed.

(** C6.  A token past its expiry, and a token that names another
    algorithm: [jwt.decode] raises outside [DecodeError], and the exception
    leaves [_authorize] and the handler of either resource. *)
Theorem expired_token_raises :
  UserResource.get Scenario.cfg Scenario.db
    (Scenario.cookie (Scenario.expired_token_of 2)) (Scenario.by_id 2)
    = Raise ExpiredSignatureError /\
  UserResource.get Scenario.cfg Scenario.db
    (Scenario.cookie Scenario.hs512_token) (Scenario.by_id 2)
    = Raise InvalidAlgorithmError /\
  UserResource.get Scenario.cfg Scenario.db
    (Scenario.cookie Scenario.anonymous_token) (Scenario.by_id 2)
    = Raise (KeyError "user_id") /\
  ExerciseResource.access Scenario.cfg Scenario.db
    (Scenario.cookie (Scenario.expired_token_of 2)) true
    = Raise ExpiredSignatureError.
Proof. repeat split; reflexivity. Qed.

Lemma update_rows_null (t : Db.table) (cond : string * Db.cmp * value)
    (c : string) (values : dict value) :
  (exists r, In r t /\ Db.holds r cond = true) ->
  Db.update_rows t cond ((c, VNone) :: values) = Raise IntegrityError.
Proof.
  induction t as [|r t IH]; intros (r0 & Hin & Hr0); [destruct Hin|].
  cbn [Db.update_rows]. destruct (Db.holds r cond) eqn:Hr.
  - reflexivity.
  - destruct Hin as [-> | Hin]; [congruence|].
    rewrite IH; [reflexivity|]. exists r0. now split.
Qed.

(** The update step of [put], given the id of an existing user and no
    field: the four absent arguments arrive as None and the UPDATE is
    refused. *)
Lemma put_update_nothing (db : Db.table) (id : Z) :
  (exists r, In r db /\ user_id r = id) ->
  UserResource.put_update db
    [("user_id", VInt id); ("user_name", VNone); ("user_pass", VNone);
     ("user_mail", VNone); ("user_role", VNone)]
  = Raise IntegrityError.
Proof.
  intros (r & Hin & Hid). unfold UserResource.put_update, dict_del.
  cbn [dict_contains dict_get dict_remove dict_getitem String.eqb Ascii.eqb Bool.eqb bind].
  unfold Db.update.
  cbn [forallb fst is_column columns existsb String.eqb Ascii.eqb Bool.eqb orb andb negb].
  rewrite update_rows_null; [reflexivity|].
  exists r. split; [exact Hin|]. cbn. rewrite Hid. apply Z.eqb_refl.
Qed.

(** C8.  PUT /user with Alice's id and nothing else, sent by Alice:
    [put] raises [KeyError] as in C2; and its update step, run on the
    parsed arguments, assigns None to the four NOT NULL columns and
    raises [IntegrityError]. *)
Theorem put_nothing_raises :
  UserResource.parse_put Scenario.touch_alice = inr Scenario.touch_alice_args /\
  UserResource.put Scenario.cfg Scenario.db (Scenario.cookie (Scenario.token_of 2))
    Scenario.touch_alice = Raise (KeyError "user_admin") /\
  UserResource.put_update Scenario.db Scenario.touch_alice_args = Raise IntegrityError.
Proof. repeat split; reflexivity. Qed.

(** ** The decision of the exercise resource *)

(** A read is granted to whoever holds a verified token with a [user_id]
    claim; the caller's record is not looked at. *)
Lemma exercise_read_granted (config : Config.t) (db : Db.table) (token : Jwt.Token)
    (claims : dict value) (uid : value) :
  Jwt.decode token (Config.JWT_SECRET config) ["HS256"] = Ret claims ->
  dict_get claims "user_id" = Some uid ->
  ExerciseResource._authorize config db token true = Ret (VBool true).
Proof.
  intros Hd Hc. unfold ExerciseResource._authorize. rewrite Hd.
  cbn [try_except_else]. unfold dict_getitem. now rewrite Hc.
Qed.

(** A write is granted to nobody: the user table has no [user_admin]
    column, so [_authorize] cannot return a true value. *)
Lemma exercise_write_never_granted (config : Config.t) (db : Db.table)
    (token : Jwt.Token) (v : value) :
  ExerciseResource._authorize config db token false = Ret v -> v = VBool false.
Proof.
  unfold ExerciseResource._authorize, try_except_else.
  destruct (Jwt.decode token (Config.JWT_SECRET config) ["HS256"]) as [claims|e].
  - unfold dict_getitem. destruct (dict_get claims "user_id") as [uid|];
      [|discriminate].
    cbn [bind]. unfold Db.fetchone.
    destruct (hd_error _) as [row|]; cbn; discriminate.
  - destruct (is_DecodeError e); [|discriminate]. now intros [= <-].
Qed.


(** ** GET /user *)

(** The parser of [get] fails with 400 only. *)
Lemma parse_get_abort (config : Config.t) (q : UserResource.GetQuery) (r : Response) :
  UserResource.parse_get config q = inl r -> status r = 400.
Proof.
  unfold UserResource.parse_get, andthen, arg_int, arg_role.
  destruct (UserResource.get_user_id q); try (intros [= <-]; reflexivity);
  (destruct (UserResource.get_user_role q) as [|n|];
     [ | destruct (UserRole_of_int n) | ];
     try (intros [= <-]; reflexivity);
     destruct (UserResource.get_user_offset q); try (intros [= <-]; reflexivity);
     destruct (UserResource.get_user_limit q); try (intros [= <-]; reflexivity);
     discriminate).
Qed.

(** What the parser of [get] returns when it passes: six typed arguments,
    the absent ones at their defaults. *)
Lemma parse_get_args (config : Config.t) (q : UserResource.GetQuery) (args : dict value) :
  UserResource.parse_get config q = inr args ->
  exists role : UserRole,
    match UserResource.get_user_role q with
    | Absent => role = User
    | Given n => UserRole_of_int n = Some role
    | Invalid => False
    end /\
    args =
      [("user_id", VInt match UserResource.get_user_id q with Given n => n | _ => 0 end);
       ("user_name", VStr match UserResource.get_user_name q with Some x => x | None => "" end);
       ("user_mail", VStr match UserResource.get_user_mail q with Some x => x | None => "" end);
       ("user_role", VRole role);
       ("user_offset", VInt match UserResource.get_user_offset q with Given n => n | _ => 0 end);
       ("user_limit", VInt match UserResource.get_user_limit q with
                           | Given n => n
                           | _ => Config.MAX_ITEMS_RETURNED config
                           end)].
Proof.
  unfold UserResource.parse_get, andthen, arg_int, arg_role, arg_str.
  destruct q as [qid qname qmail qrole qoff qlim]; cbn.
  destruct qid; try discriminate;
  (destruct qrole as [|n|]; try discriminate;
   [ | destruct (UserRole_of_int n) as [role|] eqn:Hn; try discriminate ];
   (destruct qoff; try discriminate;
    (destruct qlim; try discriminate;
     (intros [= <-]; eexists; split; [ try reflexivity; try eassumption | ];
      destruct qname, qmail; reflexivity)))).
Qed.

(** C7, as the code has it.  Without a token cookie GET /user answers 401
    provided the query passes the parser and [user_limit] lies in
    0..MAX_ITEMS_RETURNED; an argument that does not convert and a page
    limit out of range are answered 400 first. *)
Theorem get_without_cookie (config : Config.t) (db : Db.table)
    (cookies : dict Jwt.Token) (q : UserResource.GetQuery) :
  dict_contains cookies "token" = false ->
  match UserResource.parse_get config q with
  | inl r => UserResource.get config db cookies q = Ret r /\ status r = 400
  | inr args =>
      exists user_limit : value,
        dict_get args "user_limit" = Some user_limit /\
        if UserResource.in_range user_limit (Config.MAX_ITEMS_RETURNED config + 1)
        then UserResource.get config db cookies q = Ret (message "Login required" 401)
        else status_of (UserResource.get config db cookies q) = 400
  end.
Proof.
  intros Hcookie. unfold UserResource.get.
  destruct (UserResource.parse_get config q) as [r|args] eqn:Hparse.
  - split; [reflexivity|]. eapply parse_get_abort; eassumption.
  - destruct (parse_get_args _ _ _ Hparse) as (role & _ & ->).
    eexists; split; [reflexivity|].
    cbn [dict_getitem dict_get String.eqb Ascii.eqb Bool.eqb bind].
    destruct (UserResource.in_range _ _); cbn [negb].
    + now rewrite Hcookie.
    + reflexivity.
Qed.

Lemma get_without_cookie_witness :
  UserResource.get Scenario.cfg Scenario.db [] Scenario.no_query
    = Ret (message "Login required" 401).
Proof.
  pose proof (get_without_cookie Scenario.cfg Scenario.db [] Scenario.no_query eq_refl) as H.
  cbn in H. destruct H as (user_limit & Hl & H). injection Hl as <-. exact H.
Defined.

(** C7 as the spec words it fails: no cookie, [user_limit = 21] with a
    maximum of 20, and the answer is 400. *)
Lemma get_without_cookie_oversized_page :
  status_of (UserResource.get Scenario.cfg Scenario.db [] Scenario.oversized_page) = 400 /\
  status_of (UserResource.get Scenario.cfg Scenario.db [] Scenario.oversized_page) <> 401.
Proof. split; [reflexivity | discriminate]. Qed.

Lemma zdict_set_In {V : Type} (d : list (Z * V)) (k k' : Z) (v v' : V) :
  In (k, v) (zdict_set d k' v') -> In (k, v) d \/ (k, v) = (k', v').
Proof.
  induction d as [|[k0 v0] d IH]; simpl.
  - intros [H|[]]. right. now symmetry.
  - destruct (k0 =? k'); simpl.
    + intros [H|H]; [right; now symmetry | left; now right].
    + intros [H|H]; [left; now left|].
      destruct (IH H) as [H'|H']; [left; now right | now right].
Qed.

(** Every entry of the result of [get] is the public view of a selected
    row, under that row's id. *)
Lemma result_entries (rows : list UserModel) (acc : list (Z * dict value))
    (k : Z) (e : dict value) :
  In (k, e)
     (fold_left (fun result row => zdict_set result (user_id row) (UserResource.user_json row))
                rows acc) ->
  In (k, e) acc \/
  exists row, In row rows /\ k = user_id row /\ e = UserResource.user_json row.
Proof.
  revert acc; induction rows as [|r rows IH]; intros acc; simpl.
  - now left.
  - intros H. destruct (IH _ H) as [H'|(row & Hin & Hk & He)].
    + destruct (zdict_set_In _ _ _ _ _ H') as [H''|[= -> ->]]; [now left|].
      right. exists r. repeat split. now left.
    + right. exists row. repeat split; auto.
Qed.

Lemma holds_role (row : UserModel) (role : UserRole) :
  Db.holds row ("user_role", Db.CmpEq, VRole role) = true -> user_role row = role.
Proof.
  cbn. destruct (user_role row), role; cbn; intros H; try reflexivity; discriminate.
Qed.

(** An [IntEnum] member of [UserRole] is never falsy. *)
Lemma role_truthy (role : UserRole) : truthy (VRole role) = true.
Proof. destruct role; reflexivity. Qed.

Section GetSelect.

Variable db : Db.table.
Variables id off lim : Z.
Variables name mail : string.
Variable role : UserRole.

(** The rows that [get] selects all satisfy the role filter. *)
Lemma get_select_rows (users : list (Z * dict value)) :
  UserResource.get_select db
    [("user_id", VInt id); ("user_name", VStr name); ("user_mail", VStr mail);
     ("user_role", VRole role); ("user_offset", VInt off); ("user_limit", VInt lim)]
  = Ret (mkResponse 200 (JsonUsers users)) ->
  forall (k : Z) (e : dict value),
    In (k, e) users ->
    exists row,
      In row db /\ k = user_id row /\ e = UserResource.user_json row /\
      user_role row = role.
Proof.
  unfold UserResource.get_select.
  cbn [dict_getitem dict_get String.eqb Ascii.eqb Bool.eqb bind].
  rewrite role_truthy.
  intros H k e Hin.
  assert (Hrows : exists q,
             In ("user_role", Db.CmpEq, VRole role) (Db.sel_where q) /\
             In (k, e) (fold_left
                          (fun result row =>
                             zdict_set result (user_id row) (UserResource.user_json row))
                          (Db.execute db q) [])).
  { destruct (truthy (VInt id)), (truthy (VStr name)), (truthy (VStr mail));
      cbn [bind] in H; injection H as <-;
      (eexists; split; [|exact Hin]); cbn; auto 10. }
  destruct Hrows as (q & Hq & Hk).
  apply result_entries in Hk. destruct Hk as [[]|(row & Hrow & -> & ->)].
  apply execute_In in Hrow. destruct Hrow as [Hdb Hconds].
  exists row. repeat split; [exact Hdb|].
  apply holds_role. rewrite forallb_forall in Hconds. now apply Hconds.
Qed.

End GetSelect.

(** A 200 of [get] comes out of its selection step. *)
Lemma get_ok_inv (config : Config.t) (db : Db.table) (cookies : dict Jwt.Token)
    (q : UserResource.GetQuery) (users : list (Z * dict value)) :
  UserResource.get config db cookies q = Ret (mkResponse 200 (JsonUsers users)) ->
  exists args,
    UserResource.parse_get config q = inr args /\
    UserResource.get_select db args = Ret (mkResponse 200 (JsonUsers users)).
Proof.
  unfold UserResource.get.
  destruct (UserResource.parse_get config q) as [r|args] eqn:Hparse.
  - intros [= ->]. apply parse_get_abort in Hparse. discriminate.
  - intros H. exists args. split; [reflexivity|].
    destruct (parse_get_args _ _ _ Hparse) as (role & _ & Hargs).
    rewrite Hargs in H |- *.
    cbn [dict_getitem dict_get String.eqb Ascii.eqb Bool.eqb bind] in H.
    destruct (UserResource.in_range _ _); cbn [negb] in H; [|discriminate].
    destruct (dict_contains cookies "token"); cbn [negb] in H; [|discriminate].
    destruct (dict_getitem cookies "token") as [token|]; [|discriminate].
    cbn [bind] in H.
    destruct (UserResource._authorize _ _ _ _ _) as [[|]|e]; cbn [bind negb] in H;
      try discriminate.
    exact H.
Qed.

(** C10.  The role filter of GET /user is always applied: a role is never
    falsy, the parser supplies [UserRole.User] when the client names no
    role, and then every record of a 200 answer is the view of a stored
    row of role User. *)
Theorem get_default_role_filter (config : Config.t) (db : Db.table)
    (cookies : dict Jwt.Token) (q : UserResource.GetQuery)
    (users : list (Z * dict value)) :
  UserResource.get_user_role q = Absent ->
  UserResource.get config db cookies q = Ret (mkResponse 200 (JsonUsers users)) ->
  (forall role : UserRole, truthy (VRole role) = true) /\
  (exists args, UserResource.parse_get config q = inr args /\
                dict_get args "user_role" = Some (VRole User)) /\
  forall (k : Z) (e : dict value),
    In (k, e) users ->
    dict_get e "user_role" = Some (VStr "User") /\
    exists row, In row db /\ e = UserResource.user_json row /\ user_role row = User.
Proof.
  intros Habsent Hget.
  destruct (get_ok_inv _ _ _ _ _ Hget) as (args & Hparse & Hsel).
  destruct (parse_get_args _ _ _ Hparse) as (role & Hrole & Hargs).
  rewrite Habsent in Hrole. subst role.
  split; [exact role_truthy|]. split.
  - exists args. split; [exact Hparse|]. rewrite Hargs. reflexivity.
  - intros k e Hin. rewrite Hargs in Hsel.
    destruct (get_select_rows _ _ _ _ _ _ _ _ Hsel k e Hin) as (row & Hdb & _ & He & Hr).
    split.
    + rewrite He. cbn. now rewrite Hr.
    + exists row. auto.
Qed.

Lemma get_default_role_filter_witness :
  dict_get (UserResource.user_json Scenario.bob) "user_role" = Some (VStr "User") /\
  exists row,
    In row Scenario.db /\ UserResource.user_json Scenario.bob = UserResource.user_json row /\
    user_role row = User.
Proof.
  apply (proj2 (proj2 (get_default_role_filter Scenario.cfg Scenario.db
                         (Scenario.cookie (Scenario.token_of 1)) Scenario.no_query
                         [(2, UserResource.user_json Scenario.alice);
                          (3, UserResource.user_json Scenario.bob)]
                         eq_refl eq_refl)) 3).
  right. left. reflexivity.
Defined.

(** ** POST /user, then GET /user *)

Lemma string_of_list_ascii_length (l : list ascii) :
  String.length (string_of_list_ascii l) = length l.
Proof. induction l as [|a l IH]; simpl; [reflexivity | now rewrite IH]. Qed.

(** The digest is printed on 64 characters. *)
Lemma sha256_hexdigest_length (s : string) :
  String.length (SHA256.sha256_hexdigest s) = 64%nat.
Proof.
  unfold SHA256.sha256_hexdigest. rewrite string_of_list_ascii_length.
  destruct (SHA256.digest (SHA256.utf8_bytes s)) as [[[[[[[a b] c] d] e] f] g] h].
  reflexivity.
Qed.

Example sha256_hexdigest_empty :
  SHA256.sha256_hexdigest ""
  = "e3b0c44298fc1c149afbf4c8996fb92427ae41e4649b934ca495991b7852b855".
Proof. vm_compute. reflexivity. Qed.

Example sha256_hexdigest_abc :
  SHA256.sha256_hexdigest "abc"
  = "ba7816bf8f01cfea414140de5dae2223b00361a396177a9cb410ff61f20015ad".
Proof. vm_compute. reflexivity. Qed.

Example sha256_hexdigest_two_blocks :
  SHA256.sha256_hexdigest "abcdbcdecdefdefgefghfghighijhijkijkljklmklmnlmnomnopnopq"
  = "248d6a61d20638b8e5c026930c3e6039a33ce45964ff2167f6ecedd419db06c1".
Proof. vm_compute. reflexivity. Qed.

Lemma hexdigit_hex (n : Z) : SHA256.is_hex_char (SHA256.hexdigit (n mod 16)) = true.
Proof.
  assert (H : 0 <= n mod 16 < 16) by (apply Z.mod_pos_bound; lia).
  generalize dependent (n mod 16). intros m Hm.
  assert (H : m = 0 \/ m = 1 \/ m = 2 \/ m = 3 \/ m = 4 \/ m = 5 \/ m = 6 \/ m = 7 \/
              m = 8 \/ m = 9 \/ m = 10 \/ m = 11 \/ m = 12 \/ m = 13 \/ m = 14 \/
              m = 15) by lia.
  repeat (destruct H as [-> | H]; [reflexivity|]). subst m. reflexivity.
Qed.

Lemma hex8_hex (w : Z) : forallb SHA256.is_hex_char (SHA256.hex8 w) = true.
Proof.
  unfold SHA256.hex8. cbn [map forallb]. now rewrite !hexdigit_hex.
Qed.

(** The digest is 64 lowercase hex digits. *)
Lemma sha256_hexdigest_is_hexdigest (s : string) :
  SHA256.is_hexdigest (SHA256.sha256_hexdigest s) = true.
Proof.
  unfold SHA256.is_hexdigest. rewrite sha256_hexdigest_length. cbn [Nat.eqb andb].
  unfold SHA256.sha256_hexdigest. rewrite list_ascii_of_string_of_list_ascii.
  destruct (SHA256.digest (SHA256.utf8_bytes s)) as [[[[[[[a b] c] d] e] f] g] h].
  unfold SHA256.hex_of_state. rewrite !forallb_app, !hex8_hex. reflexivity.
Qed.

(** So it differs from every secret that is not itself such a text. *)
Lemma sha256_hexdigest_differs (s : string) :
  SHA256.is_hexdigest s = false -> SHA256.sha256_hexdigest s <> s.
Proof.
  intros Hs Heq. rewrite <- Heq, sha256_hexdigest_is_hexdigest in Hs. discriminate.
Qed.

Lemma fold_max_ge (l : list Z) (x : Z) : In x l -> x <= fold_right Z.max 0 l.
Proof.
  induction l as [|y l IH]; simpl; [tauto|].
  intros [->|H]; [lia|]. specialize (IH H). lia.
Qed.

(** The key of a new row is positive and above every key in the table. *)
Lemma next_id_fresh (t : Db.table) :
  1 <= Db.next_id t /\ forall r, In r t -> user_id r < Db.next_id t.
Proof.
  unfold Db.next_id. split.
  - assert (0 <= fold_right Z.max 0 (map user_id t)); [|lia].
    induction t; simpl; lia.
  - intros r Hin. assert (user_id r <= fold_right Z.max 0 (map user_id t)); [|lia].
    apply fold_max_ge. now apply in_map.
Qed.

Lemma matching_none (conds : list (string * Db.cmp * value)) (t : Db.table) :
  (forall r, In r t -> forallb (Db.holds r) conds = false) ->
  Db.matching conds t = [].
Proof.
  unfold Db.matching. induction t as [|r t IH]; simpl; intros H; [reflexivity|].
  rewrite (H r (or_introl eq_refl)). apply IH. intros r' Hr'. apply H. now right.
Qed.

Lemma matching_app (conds : list (string * Db.cmp * value)) (t u : Db.table) :
  Db.matching conds (t ++ u)%list = (Db.matching conds t ++ Db.matching conds u)%list.
Proof. unfold Db.matching. apply filter_app. Qed.

Lemma count_zero (t : Db.table) (conds : list (string * Db.cmp * value)) :
  Db.count t conds = 0 -> Db.matching conds t = [].
Proof.
  unfold Db.count. destruct (Db.matching conds t); simpl; [reflexivity | lia].
Qed.

(** The parser of [post] passes on four present arguments only. *)
Lemma parse_post_args (b : UserResource.Body) (args : dict value) :
  UserResource.parse_post b = inr args ->
  exists (name pass mail : string) (role : UserRole) (n : Z),
    UserResource.body_user_name b = Some name /\
    UserResource.body_user_pass b = Some pass /\
    UserResource.body_user_mail b = Some mail /\
    UserResource.body_user_role b = Given n /\
    UserRole_of_int n = Some role /\
    args = [("user_name", VStr name); ("user_pass", VStr pass);
            ("user_mail", VStr mail); ("user_role", VRole role)].
Proof.
  unfold UserResource.parse_post, andthen, required, arg_str, arg_role.
  destruct b as [bid [name|] [pass|] [mail|] [|n|]]; cbn; try discriminate.
  destruct (UserRole_of_int n) as [role|] eqn:Hn; [|discriminate].
  intros [= <-]. exists name, pass, mail, role, n. repeat split. exact Hn.
Qed.

Lemma parse_post_abort (b : UserResource.Body) (r : Response) :
  UserResource.parse_post b = inl r -> status r = 400.
Proof.
  unfold UserResource.parse_post, andthen, required, arg_str, arg_role.
  destruct b as [bid [name|] [pass|] [mail|] [|n|]]; cbn;
    try (intros [= <-]; reflexivity).
  destruct (UserRole_of_int n); [discriminate | intros [= <-]; reflexivity].
Qed.

Section Create.

Variable db : Db.table.
Variables name pass mail : string.
Variable role : UserRole.

(** A 201 of the creation step: the row appended and the answer given. *)
Lemma post_create_created (db' : Db.table) (resp : Response) :
  UserResource.post_create db
    [("user_name", VStr name); ("user_pass", VStr pass);
     ("user_mail", VStr mail); ("user_role", VRole role)]
  = Ret (db', resp) ->
  status resp = 201 ->
  db' = (db ++ [mkUser (Db.next_id db) name (SHA256.sha256_hexdigest pass) mail role])%list /\
  payload resp = Json [("message", VStr "The user was created successfully");
                       ("user_id", VInt (Db.next_id db));
                       ("user_name", VStr name); ("user_mail", VStr mail)].
Proof.
  unfold UserResource.post_create.
  cbn [dict_getitem dict_get String.eqb Ascii.eqb Bool.eqb bind
       UserResource.as_str UserResource.as_role].
  destruct (Db.count db _ =? 0) eqn:Hcount.
  - apply Z.eqb_eq, count_zero in Hcount.
    unfold Db.insert. destruct (Db.mail_taken db mail); [discriminate|].
    cbn [bind]. unfold Db.execute.
    cbn [Db.where_ Db.select_from Db.sel_where Db.sel_limit app].
    rewrite matching_app, Hcount.
    cbn [app Db.matching filter forallb Db.holds column String.eqb Ascii.eqb Bool.eqb
         user_name value_eqb].
    rewrite String.eqb_refl. cbn.
    intros [= <- <-] _. split; reflexivity.
  - intros [= <- <-]. discriminate.
Qed.

End Create.

(** A 201 of [post] comes out of its creation step. *)
Lemma post_created_inv (config : Config.t) (db db' : Db.table)
    (cookies : dict Jwt.Token) (b : UserResource.Body) (resp : Response) :
  UserResource.post config db cookies b = Ret (db', resp) ->
  status resp = 201 ->
  exists args,
    UserResource.parse_post b = inr args /\
    UserResource.post_create db args = Ret (db', resp).
Proof.
  unfold UserResource.post.
  destruct (UserResource.parse_post b) as [r|args] eqn:Hparse.
  - intros [= <- <-] Hs. apply parse_post_abort in Hparse. lia.
  - intros H Hs. exists args. split; [reflexivity|].
    destruct (parse_post_args _ _ Hparse) as (name & pass & mail & role & n & _ & _ & _ & _ & _ & Hargs).
    rewrite Hargs in H |- *.
    cbn [dict_getitem dict_get String.eqb Ascii.eqb Bool.eqb bind] in H.
    destruct (value_eqb (VRole role) (VRole SAdmin) || value_eqb (VRole role) (VRole Admin));
      [|exact H].
    destruct (dict_contains cookies "token"); cbn [negb] in H;
      [|injection H as <- <-; discriminate].
    destruct (dict_getitem cookies "token") as [token|]; [|discriminate].
    cbn [bind] in H.
    destruct (UserResource._authorize _ _ _ _ _) as [[|]|e]; cbn [bind negb] in H;
      [exact H | injection H as <- <-; discriminate | discriminate].
Qed.

(** No answer of [get] carries a [user_pass] field. *)
Lemma get_hides_user_pass (config : Config.t) (db : Db.table)
    (cookies : dict Jwt.Token) (q : UserResource.GetQuery)
    (users : list (Z * dict value)) :
  UserResource.get config db cookies q = Ret (mkResponse 200 (JsonUsers users)) ->
  forall (k : Z) (e : dict value), In (k, e) users -> dict_get e "user_pass" = None.
Proof.
  intros Hget k e Hin.
  destruct (get_ok_inv _ _ _ _ _ Hget) as (args & Hparse & Hsel).
  destruct (parse_get_args _ _ _ Hparse) as (role & _ & Hargs).
  rewrite Hargs in Hsel.
  destruct (get_select_rows _ _ _ _ _ _ _ _ Hsel k e Hin) as (row & _ & _ & -> & _).
  reflexivity.
Qed.

Section Find.

Variable config : Config.t.
Variable db : Db.table.
Variable new : UserModel.

Hypothesis Hid : user_id new = Db.next_id db.
Hypothesis Hmax : 0 <= Config.MAX_ITEMS_RETURNED config.

(** GET by the id of the row just appended, with that row's role as the
    role filter (or with no role filter when the row has role User),
    returns that row and no other. *)
Lemma get_created (cookies : dict Jwt.Token) (token : Jwt.Token) (qrole : raw Z) :
  dict_get cookies "token" = Some token ->
  UserResource._authorize config (db ++ [new])%list token (VInt (user_id new)) (VBool false)
    = Ret true ->
  qrole = Given (UserRole_value (user_role new)) \/
  (qrole = Absent /\ user_role new = User) ->
  UserResource.get config (db ++ [new])%list cookies
    (UserResource.mkGetQuery (Given (user_id new)) None None qrole Absent Absent)
  = Ret (mkResponse 200 (JsonUsers [(user_id new, UserResource.user_json new)])).
Proof.
  intros Hcookie Hauth Hq.
  destruct (next_id_fresh db) as [Hpos Hfresh]. rewrite <- Hid in Hpos, Hfresh.
  assert (Hparse :
    UserResource.parse_get config
      (UserResource.mkGetQuery (Given (user_id new)) None None qrole Absent Absent)
    = inr [("user_id", VInt (user_id new)); ("user_name", VStr ""); ("user_mail", VStr "");
           ("user_role", VRole (user_role new)); ("user_offset", VInt 0);
           ("user_limit", VInt (Config.MAX_ITEMS_RETURNED config))]).
  { destruct Hq as [-> | [-> Hr]].
    - destruct (user_role new); reflexivity.
    - rewrite Hr. reflexivity. }
  unfold UserResource.get. rewrite Hparse.
  cbn [dict_getitem dict_get String.eqb Ascii.eqb Bool.eqb bind].
  assert (Hrange : UserResource.in_range (VInt (Config.MAX_ITEMS_RETURNED config))
                     (Config.MAX_ITEMS_RETURNED config + 1) = true).
  { unfold UserResource.in_range. cbn [as_int].
    apply andb_true_intro. split; [apply Z.leb_le | apply Z.ltb_lt]; lia. }
  rewrite Hrange. cbn [negb].
  unfold dict_contains, dict_getitem at 1. rewrite Hcookie. cbn [negb bind].
  rewrite Hauth. cbn [negb bind].
  unfold UserResource.get_select.
  cbn [dict_getitem dict_get String.eqb Ascii.eqb Bool.eqb bind].
  rewrite role_truthy.
  assert (Htruthy : truthy (VInt (user_id new)) = true).
  { cbn [truthy]. destruct (Z.eqb_spec (user_id new) 0); [lia | reflexivity]. }
  rewrite Htruthy. cbn [bind truthy String.eqb negb].
  unfold Db.execute.
  cbn [Db.where_ Db.select_from Db.sel_where Db.sel_limit app].
  rewrite matching_app, matching_none.
  - cbn [app Db.matching filter forallb Db.holds column String.eqb Ascii.eqb Bool.eqb
         value_eqb as_int].
    rewrite !Z.eqb_refl. reflexivity.
  - intros r Hr. specialize (Hfresh r Hr).
    cbn [forallb Db.holds column String.eqb Ascii.eqb Bool.eqb value_eqb as_int].
    destruct (Z.eqb_spec (user_id r) (user_id new)); [lia | reflexivity].
Qed.

End Find.

(** X26.  After a 201 of POST /user the store holds one more row, with
    the submitted name, mail and role, the new id that the answer returns,
    and the SHA-256 hex digest of the secret as credential (64 lowercase
    hex digits, so it differs from every secret that is not itself 64
    lowercase hex digits).
    GET by that id returns exactly that row's id, name, mail and role when
    the caller has access and the role filter is the submitted role, or is
    absent for a role-User account; and no entry of any GET answer has a
    [user_pass] field. *)
Theorem create_then_find (config : Config.t) (db db' : Db.table)
    (cookies : dict Jwt.Token) (b : UserResource.Body) (resp : Response) :
  UserResource.post config db cookies b = Ret (db', resp) ->
  status resp = 201 ->
  exists (name pass mail : string) (role : UserRole) (n : Z),
    let new := mkUser (Db.next_id db) name (SHA256.sha256_hexdigest pass) mail role in
    (UserResource.body_user_name b = Some name /\
     UserResource.body_user_pass b = Some pass /\
     UserResource.body_user_mail b = Some mail /\
     UserResource.body_user_role b = Given n /\
     UserRole_of_int n = Some role) /\
    payload resp = Json [("message", VStr "The user was created successfully");
                         ("user_id", VInt (user_id new));
                         ("user_name", VStr name); ("user_mail", VStr mail)] /\
    db' = (db ++ [new])%list /\
    (SHA256.is_hexdigest pass = false -> user_pass new <> pass) /\
    (forall (cookies' : dict Jwt.Token) (token : Jwt.Token) (qrole : raw Z),
        0 <= Config.MAX_ITEMS_RETURNED config ->
        dict_get cookies' "token" = Some token ->
        UserResource._authorize config db' token (VInt (user_id new)) (VBool false)
          = Ret true ->
        qrole = Given n \/ (qrole = Absent /\ role = User) ->
        UserResource.get config db' cookies'
          (UserResource.mkGetQuery (Given (user_id new)) None None qrole Absent Absent)
        = Ret (mkResponse 200
                 (JsonUsers [(user_id new,
                              [("user_id", VInt (user_id new)); ("user_name", VStr name);
                               ("user_mail", VStr mail);
                               ("user_role", VStr (UserRole_name role))])]))) /\
    (forall (cookies' : dict Jwt.Token) (q : UserResource.GetQuery)
            (users : list (Z * dict value)),
        UserResource.get config db' cookies' q = Ret (mkResponse 200 (JsonUsers users)) ->
        forall (k : Z) (e : dict value),
          In (k, e) users -> dict_get e "user_pass" = None).
Proof.
  intros Hpost Hstatus.
  destruct (post_created_inv _ _ _ _ _ _ Hpost Hstatus) as (args & Hparse & Hcreate).
  destruct (parse_post_args _ _ Hparse)
    as (name & pass & mail & role & n & Hn & Hp & Hm & Hr & Hrole & ->).
  destruct (post_create_created _ _ _ _ _ _ _ Hcreate Hstatus) as [-> Hpayload].
  exists name, pass, mail, role, n. cbn zeta.
  split; [repeat split; assumption|].
  split; [exact Hpayload|].
  split; [reflexivity|].
  split; [cbn [user_pass]; apply sha256_hexdigest_differs|].
  split.
  - intros cookies' token qrole Hmax Hcookie Hauth Hq.
    apply (get_created config db
             (mkUser (Db.next_id db) name (SHA256.sha256_hexdigest pass) mail role)
             eq_refl Hmax cookies' token qrole Hcookie Hauth).
    cbn [user_role]. destruct Hq as [-> | Hq]; [left | now right].
    f_equal. unfold UserRole_of_int in Hrole.
    destruct (Z.eqb_spec n 1); [injection Hrole as <-; now subst|].
    destruct (Z.eqb_spec n 2); [injection Hrole as <-; now subst|].
    destruct (Z.eqb_spec n 3); [injection Hrole as <-; now subst|discriminate].
  - intros cookies' q users. apply get_hides_user_pass.
Qed.

Lemma create_then_find_witness :
  UserResource.get Scenario.cfg Scenario.db_with_dave
    (Scenario.cookie (Scenario.token_of 1))
    (UserResource.mkGetQuery (Given 5) None None (Given 2) Absent Absent)
  = Ret (mkResponse 200
           (JsonUsers [(5, [("user_id", VInt 5); ("user_name", VStr "Dave");
                            ("user_mail", VStr "dave@example.com");
                            ("user_role", VStr "Admin")])])).
Proof.
  destruct (create_then_find Scenario.cfg Scenario.db Scenario.db_with_dave
              (Scenario.cookie (Scenario.token_of 1)) Scenario.new_admin_dave
              _ eq_refl eq_refl)
    as (name & pass & mail & role & n & (Hn & Hp & Hm & Hr & Hrole) & _ & _ & _ & Hfind & _).
  injection Hn as <-. injection Hm as <-. injection Hr as <-. injection Hrole as <-.
  apply (Hfind (Scenario.cookie (Scenario.token_of 1)) (Scenario.token_of 1) (Given 2)).
  - cbn. lia.
  - reflexivity.
  - reflexivity.
  - now left.
Defined.

(** C9.  root creates the Admin account Dave and the answer returns the
    id 5.  GET by that id alone then finds nothing: the guard of the role
    filter, [if args["user_role"]:], never skips, because the parser puts
    [UserRole.User] there when the client names no role, where the guards
    of the id, name and mail filters skip on their defaults.  The row is
    in the store: the same GET with the role 2 returns it. *)
Theorem created_admin_not_found_by_id :
  UserResource.post Scenario.cfg Scenario.db (Scenario.cookie (Scenario.token_of 1))
    Scenario.new_admin_dave
  = Ret (Scenario.db_with_dave,
         mkResponse 201
           (Json [("message", VStr "The user was created successfully");
                  ("user_id", VInt 5); ("user_name", VStr "Dave");
                  ("user_mail", VStr "dave@example.com")])) /\
  UserResource.get Scenario.cfg Scenario.db_with_dave
    (Scenario.cookie (Scenario.token_of 1)) (Scenario.by_id 5)
  = Ret (mkResponse 200 (JsonUsers [])) /\
  UserResource.get Scenario.cfg Scenario.db_with_dave
    (Scenario.cookie (Scenario.token_of 1))
    (UserResource.mkGetQuery (Given 5) None None (Given 2) Absent Absent)
  = Ret (mkResponse 200 (JsonUsers [(5, UserResource.user_json Scenario.dave)])).
Proof. repeat split; reflexivity. Qed.

(** * Further properties of the routes *)

(** ** The decision, read backwards *)

(** Where a True of [_authorize] comes from. *)
Lemma authorize_granted (config : Config.t) (db : Db.table) (token : Jwt.Token)
    (user_id change_admin : value) :
  UserResource._authorize config db token user_id change_admin = Ret true ->
  exists (claims : dict value) (uid : value) (row : UserModel),
    Jwt.decode token (Config.JWT_SECRET config) ["HS256"] = Ret claims /\
    dict_get claims "user_id" = Some uid /\
    In row db /\
    Db.holds row ("user_id", Db.CmpEq, uid) = true /\
    (user_role row = SAdmin \/ user_role row = Admin \/
     (user_role row = User /\
      value_eqb user_id (VInt (Models.user_id row)) = true /\
      truthy change_admin = false)).
Proof.
  unfold UserResource._authorize, try_except_else.
  destruct (Jwt.decode token (Config.JWT_SECRET config) ["HS256"]) as [claims|e];
    [|destruct (is_DecodeError e); discriminate].
  unfold dict_getitem at 1.
  destruct (dict_get claims "user_id") as [uid|] eqn:Hclaim; [|discriminate].
  cbn [bind]. unfold Db.fetchone.
  destruct (hd_error _) as [row|] eqn:Hrow; [|discriminate].
  apply hd_error_In, execute_In in Hrow. destruct Hrow as [Hin Hconds].
  rewrite forallb_forall in Hconds.
  specialize (Hconds ("user_id", Db.CmpEq, uid) (or_introl eq_refl)).
  cbn [Db.getitem column String.eqb Ascii.eqb Bool.eqb bind].
  intros H. exists claims, uid, row.
  split; [reflexivity|]. split; [exact Hclaim|]. split; [exact Hin|].
  split; [exact Hconds|].
  destruct (user_role row); cbn in H; auto.
  right; right. split; [reflexivity|].
  destruct (value_eqb user_id VNone); [discriminate|].
  injection H as H. apply andb_prop in H. destruct H as [H1 H2].
  split; [exact H1|]. now destruct (truthy change_admin).
Qed.

(** X1.  Access to a user record is only ever granted on a verified token
    whose [user_id] claim selects a stored row, and then either because
    that row is privileged, or because the row has role User, the target
    is the row's own id and no change of the admin status is asked for. *)
Theorem authorize_allow_inv (config : Config.t) (db : Db.table) (token : Jwt.Token)
    (user_id change_admin : value) :
  UserResource._authorize config db token user_id change_admin = Ret true ->
  exists (claims : dict value) (uid : value) (row : UserModel),
    Jwt.decode token (Config.JWT_SECRET config) ["HS256"] = Ret claims /\
    dict_get claims "user_id" = Some uid /\
    In row db /\
    Db.holds row ("user_id", Db.CmpEq, uid) = true /\
    (user_role row = SAdmin \/ user_role row = Admin \/
     (user_role row = User /\
      value_eqb user_id (VInt (Models.user_id row)) = true /\
      truthy change_admin = false)).
Proof. apply authorize_granted. Qed.

Lemma authorize_allow_inv_witness :
  exists (claims : dict value) (uid : value) (row : UserModel),
    Jwt.decode (Scenario.token_of 2) (Config.JWT_SECRET Scenario.cfg) ["HS256"]
      = Ret claims /\
    dict_get claims "user_id" = Some uid /\
    In row Scenario.db /\
    Db.holds row ("user_id", Db.CmpEq, uid) = true /\
    (user_role row = SAdmin \/ user_role row = Admin \/
     (user_role row = User /\
      value_eqb (VInt 2) (VInt (Models.user_id row)) = true /\
      truthy (VBool false) = false)).
Proof.
  exact (authorize_allow_inv Scenario.cfg Scenario.db (Scenario.token_of 2)
           (VInt 2) (VBool false) eq_refl).
Defined.

(** ** GET /user, continued *)

(** A 200 of [get], taken apart: the page limit was in range, the cookie
    held a token, the decision for the requested id was True, and the
    answer is that of the selection step. *)
Lemma get_ok_full (config : Config.t) (db : Db.table) (cookies : dict Jwt.Token)
    (q : UserResource.GetQuery) (users : list (Z * dict value)) :
  UserResource.get config db cookies q = Ret (mkResponse 200 (JsonUsers users)) ->
  exists (role : UserRole) (token : Jwt.Token),
    let id := match UserResource.get_user_id q with Given n => n | _ => 0 end in
    let lim := match UserResource.get_user_limit q with
               | Given n => n
               | _ => Config.MAX_ITEMS_RETURNED config
               end in
    0 <= lim <= Config.MAX_ITEMS_RETURNED config /\
    dict_get cookies "token" = Some token /\
    UserResource._authorize config db token (VInt id) (VBool false) = Ret true /\
    UserResource.get_select db
      [("user_id", VInt id);
       ("user_name", VStr match UserResource.get_user_name q with Some x => x | None => "" end);
       ("user_mail", VStr match UserResource.get_user_mail q with Some x => x | None => "" end);
       ("user_role", VRole role);
       ("user_offset", VInt match UserResource.get_user_offset q with Given n => n | _ => 0 end);
       ("user_limit", VInt lim)]
    = Ret (mkResponse 200 (JsonUsers users)).
Proof.
  unfold UserResource.get.
  destruct (UserResource.parse_get config q) as [r|args] eqn:Hparse.
  - intros [= ->]. apply parse_get_abort in Hparse. discriminate.
  - destruct (parse_get_args _ _ _ Hparse) as (role & _ & ->).
    cbn [dict_getitem dict_get String.eqb Ascii.eqb Bool.eqb bind].
    destruct (UserResource.in_range _ _) eqn:Hrange; cbn [negb]; [|discriminate].
    unfold dict_contains, dict_getitem at 1.
    destruct (dict_get cookies "token") as [token|]; cbn [negb bind]; [|discriminate].
    destruct (UserResource._authorize _ _ _ _ _) as [[|]|e] eqn:Hauth;
      cbn [bind negb]; try discriminate.
    intros H. exists role, token. cbn zeta.
    split; [|split; [reflexivity|split; [exact Hauth|exact H]]].
    unfold UserResource.in_range in Hrange. cbn [as_int] in Hrange.
    apply andb_prop in Hrange. destruct Hrange as [H1 H2].
    apply Z.leb_le in H1. apply Z.ltb_lt in H2. lia.
Qed.

Lemma zdict_set_length {V : Type} (d : list (Z * V)) (k : Z) (v : V) :
  (length (zdict_set d k v) <= S (length d))%nat.
Proof.
  induction d as [|[k0 v0] d IH]; simpl; [lia|].
  destruct (k0 =? k); simpl; lia.
Qed.

Lemma result_length (rows : list UserModel) (acc : list (Z * dict value)) :
  (length (fold_left
             (fun result row => zdict_set result (user_id row) (UserResource.user_json row))
             rows acc)
   <= length acc + length rows)%nat.
Proof.
  revert acc; induction rows as [|r rows IH]; intros acc; simpl; [lia|].
  specialize (IH (zdict_set acc (user_id r) (UserResource.user_json r))).
  pose proof (zdict_set_length acc (user_id r) (UserResource.user_json r)). lia.
Qed.

(** The listing branch of the selection step never returns more rows
    than its LIMIT. *)
Lemma get_select_listing_length (db : Db.table) (off lim : Z) (name mail : string)
    (role : UserRole) (users : list (Z * dict value)) :
  UserResource.get_select db
    [("user_id", VInt 0); ("user_name", VStr name); ("user_mail", VStr mail);
     ("user_role", VRole role); ("user_offset", VInt off); ("user_limit", VInt lim)]
  = Ret (mkResponse 200 (JsonUsers users)) ->
  (length users <= Z.to_nat lim)%nat.
Proof.
  unfold UserResource.get_select.
  cbn [dict_getitem dict_get String.eqb Ascii.eqb Bool.eqb bind].
  rewrite role_truthy. cbn [truthy Z.eqb negb bind].
  intros H.
  destruct (negb (name =? "")%string), (negb (mail =? "")%string);
    injection H as <-;
    (etransitivity; [apply result_length|]);
    unfold Db.execute; cbn [Db.sel_limit Db.where_ Db.limit as_int length Nat.add];
    apply firstn_le_length.
Qed.

(** X2.  A listing (GET /user without [user_id], or with [user_id = 0])
    that is answered 200 holds at most [user_limit] records, and
    [user_limit] is at most [MAX_ITEMS_RETURNED]. *)
Theorem get_page_bounded (config : Config.t) (db : Db.table)
    (cookies : dict Jwt.Token) (q : UserResource.GetQuery)
    (users : list (Z * dict value)) :
  match UserResource.get_user_id q with Given n => n = 0 | _ => True end ->
  UserResource.get config db cookies q = Ret (mkResponse 200 (JsonUsers users)) ->
  let lim := match UserResource.get_user_limit q with
             | Given n => n
             | _ => Config.MAX_ITEMS_RETURNED config
             end in
  Z.of_nat (length users) <= lim /\ lim <= Config.MAX_ITEMS_RETURNED config.
Proof.
  intros Hid Hget.
  destruct (get_ok_full _ _ _ _ _ Hget) as (role & token & Hlim & _ & _ & Hsel).
  cbn zeta in *.
  set (lim := match UserResource.get_user_limit q with
              | Given n => n
              | _ => Config.MAX_ITEMS_RETURNED config
              end) in *.
  split; [|lia].
  assert (Hzero : match UserResource.get_user_id q with Given n => n | _ => 0 end = 0).
  { destruct (UserResource.get_user_id q); auto. }
  rewrite Hzero in Hsel.
  apply get_select_listing_length in Hsel. lia.
Qed.

Lemma get_page_bounded_witness :
  Z.of_nat (length [(2, UserResource.user_json Scenario.alice);
                    (3, UserResource.user_json Scenario.bob)]) <= 20 /\ 20 <= 20.
Proof.
  exact (get_page_bounded Scenario.cfg Scenario.db (Scenario.cookie (Scenario.token_of 1))
           Scenario.no_query _ I eq_refl).
Defined.

(** With a non-zero [user_id] the selection step returns rows of that id
    only. *)
Lemma get_select_by_id (db : Db.table) (id off lim : Z) (name mail : string)
    (role : UserRole) (users : list (Z * dict value)) :
  id <> 0 ->
  UserResource.get_select db
    [("user_id", VInt id); ("user_name", VStr name); ("user_mail", VStr mail);
     ("user_role", VRole role); ("user_offset", VInt off); ("user_limit", VInt lim)]
  = Ret (mkResponse 200 (JsonUsers users)) ->
  forall (k : Z) (e : dict value),
    In (k, e) users ->
    k = id /\ exists row, In row db /\ user_id row = id /\ e = UserResource.user_json row.
Proof.
  intros Hid. unfold UserResource.get_select.
  cbn [dict_getitem dict_get String.eqb Ascii.eqb Bool.eqb bind].
  rewrite role_truthy.
  assert (Ht : truthy (VInt id) = true).
  { cbn. destruct (Z.eqb_spec id 0); [contradiction | reflexivity]. }
  rewrite Ht. cbn [bind].
  intros H k e Hin.
  assert (Hrows : exists q,
             In ("user_id", Db.CmpEq, VInt id) (Db.sel_where q) /\
             In (k, e) (fold_left
                          (fun result row =>
                             zdict_set result (user_id row) (UserResource.user_json row))
                          (Db.execute db q) [])).
  { destruct (truthy (VStr name)), (truthy (VStr mail));
      injection H as <-; (eexists; split; [|exact Hin]); cbn; auto 10. }
  destruct Hrows as (q & Hq & Hk).
  apply result_entries in Hk. destruct Hk as [[]|(row & Hrow & -> & ->)].
  apply execute_In in Hrow. destruct Hrow as [Hdb Hconds].
  rewrite forallb_forall in Hconds. specialize (Hconds _ Hq).
  cbn in Hconds. apply Z.eqb_eq in Hconds.
  split; [exact Hconds|]. exists row. auto.
Qed.

Section OwnRecord.

Variable config : Config.t.
Variable db : Db.table.
Variable token : Jwt.Token.
Variable claims : dict value.
Variable c : Z.
Variable row : UserModel.
Variable cookies : dict Jwt.Token.

Hypothesis Hdecode :
  Jwt.decode token (Config.JWT_SECRET config) ["HS256"] = Ret claims.
Hypothesis Hclaim : dict_get claims "user_id" = Some (VInt c).
Hypothesis Hrow :
  Db.fetchone (Db.execute db (Db.where_ Db.select_from "user_id" Db.CmpEq (VInt c)))
    = Ret (Some row).
Hypothesis Hrole : user_role row = User.
Hypothesis Hcookie : dict_get cookies "token" = Some token.
Hypothesis Hc : c <> 0.

(** X3.  Whatever a caller of role User (with a non-zero id) asks of
    GET /user, a 200 answer holds records under the caller's own id only:
    no query returns another user's record to them. *)
Theorem get_unprivileged_sees_own_only (q : UserResource.GetQuery)
    (users : list (Z * dict value)) :
  UserResource.get config db cookies q = Ret (mkResponse 200 (JsonUsers users)) ->
  forall (k : Z) (e : dict value),
    In (k, e) users ->
    k = c /\ exists r, In r db /\ user_id r = c /\ e = UserResource.user_json r.
Proof.
  intros Hget k e Hin.
  destruct (get_ok_full _ _ _ _ _ Hget) as (role & token' & _ & Htok & Hauth & Hsel).
  cbn zeta in *. rewrite Hcookie in Htok. injection Htok as <-.
  rewrite (authorize_known config db token claims c Hdecode Hclaim row Hrow), Hrole in Hauth.
  cbn in Hauth. injection Hauth as Hauth. rewrite andb_true_r in Hauth.
  apply Z.eqb_eq in Hauth. rewrite Hauth in Hsel.
  eapply get_select_by_id; eassumption.
Qed.

End OwnRecord.

Lemma get_unprivileged_sees_own_only_witness :
  2 = 2 /\
  exists r, In r Scenario.db /\ user_id r = 2 /\
            UserResource.user_json Scenario.alice = UserResource.user_json r.
Proof.
  apply (get_unprivileged_sees_own_only Scenario.cfg Scenario.db (Scenario.token_of 2)
           [("user_id", VInt 2)] 2 Scenario.alice (Scenario.cookie (Scenario.token_of 2))
           eq_refl eq_refl eq_refl eq_refl eq_refl ltac:(discriminate)
           (Scenario.by_id 2) [(2, UserResource.user_json Scenario.alice)] eq_refl
           2 (UserResource.user_json Scenario.alice)).
  left. reflexivity.
Defined.

Lemma zdict_set_fresh {V : Type} (d : list (Z * V)) (k : Z) (v : V) :
  ~ In k (map fst d) -> zdict_set d k v = (d ++ [(k, v)])%list.
Proof.
  induction d as [|[k0 v0] d IH]; simpl; intros H; [reflexivity|].
  destruct (Z.eqb_spec k0 k); [exfalso; apply H; now left|].
  rewrite IH; [reflexivity|]. intros Hin. apply H. now right.
Qed.

(** With distinct ids the result of [get] is the list of the selected
    rows' views, in order. *)
Lemma result_of_distinct_rows (rows : list UserModel) (acc : list (Z * dict value)) :
  NoDup (map fst acc ++ map user_id rows) ->
  fold_left (fun result row => zdict_set result (user_id row) (UserResource.user_json row))
            rows acc
  = (acc ++ map (fun row => (user_id row, UserResource.user_json row)) rows)%list.
Proof.
  revert acc; induction rows as [|r rows IH]; intros acc Hnd; simpl.
  - now rewrite app_nil_r.
  - rewrite zdict_set_fresh.
    + rewrite IH.
      * now rewrite <- app_assoc.
      * rewrite map_app. simpl. rewrite <- app_assoc. exact Hnd.
    + simpl in Hnd. apply NoDup_remove_2 in Hnd.
      intros Hin. apply Hnd. apply in_or_app. now left.
Qed.

(** Distinct keys stay distinct in a selection and in a page of it. *)
Lemma distinct_keys_filter {Row Key : Type} (key : Row -> Key) (keep : Row -> bool)
    (rows : list Row) :
  NoDup (map key rows) -> NoDup (map key (filter keep rows)).
Proof.
  induction rows as [|x rows IH]; simpl; intros H; [constructor|].
  inversion H as [|? ? Hx Hl]; subst.
  destruct (keep x); simpl; [|now apply IH].
  constructor; [|now apply IH].
  intros Hin. apply Hx. apply in_map_iff in Hin. destruct Hin as (y & Hy & Hin).
  apply filter_In in Hin. apply in_map_iff. exists y. tauto.
Qed.

Lemma distinct_keys_firstn {Row Key : Type} (key : Row -> Key) (n : nat)
    (rows : list Row) :
  NoDup (map key rows) -> NoDup (map key (firstn n rows)).
Proof.
  revert rows; induction n as [|n IH]; intros [|x rows]; simpl; intros H;
    try constructor.
  - inversion H as [|? ? Hx Hl]; subst.
    intros Hin. apply Hx. apply in_map_iff in Hin. destruct Hin as (y & Hy & Hin).
    apply firstn_In in Hin. apply in_map_iff. exists y. tauto.
  - inversion H; subst. now apply IH.
Qed.

Lemma filter_nothing {A : Type} (p : A -> bool) (l : list A) :
  (forall y, In y l -> p y = false) -> filter p l = [].
Proof.
  induction l as [|x l IH]; simpl; intros H; [reflexivity|].
  rewrite (H x (or_introl eq_refl)). apply IH. intros y Hy. apply H. now right.
Qed.

(** A filter that only lets through rows with the key of [x] selects [x]
    alone when keys are distinct. *)
Lemma filter_unique {A B : Type} (f : A -> B) (p : A -> bool) (l : list A) (x : A) :
  NoDup (map f l) ->
  In x l ->
  p x = true ->
  (forall y, In y l -> p y = true -> f y = f x) ->
  filter p l = [x].
Proof.
  induction l as [|y l IH]; simpl; intros Hnd Hin Hpx Hkey; [contradiction|].
  inversion Hnd as [|? ? Hy Hl]; subst.
  destruct Hin as [-> | Hin].
  - rewrite Hpx. f_equal. apply filter_nothing. intros z Hz.
    destruct (p z) eqn:Hpz; [|reflexivity].
    exfalso. apply Hy. rewrite <- (Hkey z (or_intror Hz) Hpz). now apply in_map.
  - destruct (p y) eqn:Hpy.
    + exfalso. apply Hy. rewrite (Hkey y (or_introl eq_refl) Hpy). now apply in_map.
    + apply IH; auto.
Qed.

Section Listing.

Variable config : Config.t.
Variable db : Db.table.
Variable token : Jwt.Token.
Variable claims : dict value.
Variable c : Z.
Variable row : UserModel.
Variable cookies : dict Jwt.Token.

Hypothesis Hdecode :
  Jwt.decode token (Config.JWT_SECRET config) ["HS256"] = Ret claims.
Hypothesis Hclaim : dict_get claims "user_id" = Some (VInt c).
Hypothesis Hrow :
  Db.fetchone (Db.execute db (Db.where_ Db.select_from "user_id" Db.CmpEq (VInt c)))
    = Ret (Some row).
Hypothesis Hcookie : dict_get cookies "token" = Some token.
Hypothesis Hids : NoDup (map user_id db).

(** X4.  What a listing returns to a privileged caller: for a role [n], an
    offset and a limit within 0..MAX_ITEMS_RETURNED, the views of the
    first [limit] stored rows, in table order, whose id is at least the
    offset and whose role is the one asked for. *)
Theorem get_listing (n off lim : Z) (role : UserRole) :
  user_role row = SAdmin \/ user_role row = Admin ->
  UserRole_of_int n = Some role ->
  0 <= lim <= Config.MAX_ITEMS_RETURNED config ->
  UserResource.get config db cookies
    (UserResource.mkGetQuery Absent None None (Given n) (Given off) (Given lim))
  = Ret (mkResponse 200
           (JsonUsers
              (map (fun r => (user_id r, UserResource.user_json r))
                   (firstn (Z.to_nat lim)
                      (filter (fun r => (off <=? user_id r)
                                        && UserRole_eqb (user_role r) role) db))))).
Proof.
  intros Hpriv Hn Hlim.
  unfold UserResource.get, UserResource.parse_get, andthen, arg_int, arg_role, arg_str.
  cbn [UserResource.get_user_id UserResource.get_user_name UserResource.get_user_mail
       UserResource.get_user_role UserResource.get_user_offset
       UserResource.get_user_limit].
  rewrite Hn.
  cbn [dict_getitem dict_get String.eqb Ascii.eqb Bool.eqb bind].
  assert (Hrange : UserResource.in_range (VInt lim) (Config.MAX_ITEMS_RETURNED config + 1)
                   = true).
  { unfold UserResource.in_range. cbn [as_int].
    apply andb_true_intro. split; [apply Z.leb_le | apply Z.ltb_lt]; lia. }
  rewrite Hrange. cbn [negb].
  unfold dict_contains, dict_getitem at 1. rewrite Hcookie. cbn [negb bind].
  rewrite (authorize_known config db token claims c Hdecode Hclaim row Hrow).
  assert (Hp : UserRole_eqb (user_role row) SAdmin || UserRole_eqb (user_role row) Admin
               = true) by (destruct Hpriv as [-> | ->]; reflexivity).
  rewrite Hp. cbn [negb bind].
  unfold UserResource.get_select.
  cbn [dict_getitem dict_get String.eqb Ascii.eqb Bool.eqb bind].
  rewrite role_truthy. cbn [truthy Z.eqb String.eqb negb bind].
  unfold Db.execute.
  cbn [Db.where_ Db.limit Db.select_from Db.sel_where Db.sel_limit app as_int].
  unfold Db.matching.
  rewrite (filter_ext _ (fun r => (off <=? user_id r) && UserRole_eqb (user_role r) role)).
  - rewrite result_of_distinct_rows; [reflexivity|].
    cbn [map app]. now apply distinct_keys_firstn, distinct_keys_filter.
  - intros r. cbn. now rewrite andb_true_r.
Qed.

(** X5.  A caller of role User (with a non-zero id) who asks GET /user for
    their own id gets 200 and their own record, provided
    [MAX_ITEMS_RETURNED] is not negative (the default page limit must pass
    the range check). *)
Theorem get_own_record :
  user_role row = User ->
  c <> 0 ->
  0 <= Config.MAX_ITEMS_RETURNED config ->
  UserResource.get config db cookies
    (UserResource.mkGetQuery (Given c) None None Absent Absent Absent)
  = Ret (mkResponse 200 (JsonUsers [(c, UserResource.user_json row)])).
Proof.
  intros Hrole Hc Hmax.
  destruct (select_by_id_row _ _ _ Hrow) as [Hin Hid].
  unfold UserResource.get, UserResource.parse_get, andthen, arg_int, arg_role, arg_str.
  cbn [UserResource.get_user_id UserResource.get_user_name UserResource.get_user_mail
       UserResource.get_user_role UserResource.get_user_offset
       UserResource.get_user_limit].
  cbn [dict_getitem dict_get String.eqb Ascii.eqb Bool.eqb bind].
  assert (Hrange : UserResource.in_range (VInt (Config.MAX_ITEMS_RETURNED config))
                     (Config.MAX_ITEMS_RETURNED config + 1) = true).
  { unfold UserResource.in_range. cbn [as_int].
    apply andb_true_intro. split; [apply Z.leb_le | apply Z.ltb_lt]; lia. }
  rewrite Hrange. cbn [negb].
  unfold dict_contains, dict_getitem at 1. rewrite Hcookie. cbn [negb bind].
  rewrite (authorize_known config db token claims c Hdecode Hclaim row Hrow), Hrole.
  cbn [UserRole_eqb UserRole_value Z.eqb Pos.eqb orb value_eqb as_int andb truthy negb].
  rewrite Z.eqb_refl. cbn [negb bind].
  unfold UserResource.get_select.
  cbn [dict_getitem dict_get String.eqb Ascii.eqb Bool.eqb bind].
  rewrite role_truthy.
  assert (Ht : truthy (VInt c) = true).
  { cbn. destruct (Z.eqb_spec c 0); [contradiction | reflexivity]. }
  rewrite Ht. cbn [truthy String.eqb negb bind].
  unfold Db.execute.
  cbn [Db.where_ Db.select_from Db.sel_where Db.sel_limit app].
  unfold Db.matching.
  rewrite (filter_unique user_id _ db row Hids Hin).
  - cbn. now rewrite Hid.
  - cbn. rewrite Hid, Hrole, Z.eqb_refl. reflexivity.
  - intros y _ Hy. cbn in Hy. apply andb_prop in Hy. destruct Hy as [Hy _].
    apply Z.eqb_eq in Hy. congruence.
Qed.

End Listing.

Lemma get_listing_witness :
  UserResource.get Scenario.cfg Scenario.db (Scenario.cookie (Scenario.token_of 1))
    (UserResource.mkGetQuery Absent None None (Given 3) (Given 3) (Given 5))
  = Ret (mkResponse 200 (JsonUsers [(3, UserResource.user_json Scenario.bob)])).
Proof.
  refine (get_listing Scenario.cfg Scenario.db (Scenario.token_of 1)
            [("user_id", VInt 1)] 1 Scenario.root (Scenario.cookie (Scenario.token_of 1))
            eq_refl eq_refl eq_refl eq_refl _ 3 3 5 User (or_introl eq_refl) eq_refl _).
  - repeat constructor; cbn; intuition discriminate.
  - cbn. lia.
Defined.

Lemma get_own_record_witness :
  UserResource.get Scenario.cfg Scenario.db (Scenario.cookie (Scenario.token_of 3))
    (UserResource.mkGetQuery (Given 3) None None Absent Absent Absent)
  = Ret (mkResponse 200 (JsonUsers [(3, UserResource.user_json Scenario.bob)])).
Proof.
  apply (get_own_record Scenario.cfg Scenario.db (Scenario.token_of 3)
           [("user_id", VInt 3)] 3 Scenario.bob (Scenario.cookie (Scenario.token_of 3))
           eq_refl eq_refl eq_refl eq_refl).
  - repeat constructor; cbn; intuition discriminate.
  - reflexivity.
  - discriminate.
  - cbn. lia.
Defined.

(** ** POST /user, continued *)

Lemma existsb_none {A : Type} (p : A -> bool) (l : list A) :
  (forall x, In x l -> p x = false) -> existsb p l = false.
Proof.
  induction l as [|x l IH]; simpl; intros H; [reflexivity|].
  rewrite (H x (or_introl eq_refl)). apply IH. intros y Hy. apply H. now right.
Qed.

Lemma existsb_none_inv {A : Type} (p : A -> bool) (l : list A) (x : A) :
  existsb p l = false -> In x l -> p x = false.
Proof.
  intros H Hin. destruct (p x) eqn:Hp; [|reflexivity].
  rewrite <- H. symmetry. apply existsb_exists. now exists x.
Qed.

Section CreateFresh.

Variable db : Db.table.
Variables name pass mail : string.
Variable role : UserRole.

(** The creation step on a name that no row carries. *)
Lemma post_create_new_name :
  (forall r, In r db -> user_name r <> name) ->
  UserResource.post_create db
    [("user_name", VStr name); ("user_pass", VStr pass);
     ("user_mail", VStr mail); ("user_role", VRole role)]
  = if Db.mail_taken db mail then Raise IntegrityError
    else Ret ((db ++ [mkUser (Db.next_id db) name (SHA256.sha256_hexdigest pass) mail role])%list,
              mkResponse 201
                (Json [("message", VStr "The user was created successfully");
                       ("user_id", VInt (Db.next_id db));
                       ("user_name", VStr name); ("user_mail", VStr mail)])).
Proof.
  intros Hname.
  assert (Hnone : Db.matching [("user_name", Db.CmpEq, VStr name)] db = []).
  { apply matching_none. intros r Hr. cbn. rewrite andb_true_r.
    apply String.eqb_neq. now apply Hname. }
  unfold UserResource.post_create.
  cbn [dict_getitem dict_get String.eqb Ascii.eqb Bool.eqb bind
       UserResource.as_str UserResource.as_role].
  unfold Db.count. rewrite Hnone. cbn [length Z.of_nat Z.eqb].
  unfold Db.insert. destruct (Db.mail_taken db mail); [reflexivity|].
  cbn [bind]. unfold Db.execute.
  cbn [Db.where_ Db.select_from Db.sel_where Db.sel_limit app].
  rewrite matching_app, Hnone.
  cbn [app Db.matching filter forallb Db.holds column String.eqb Ascii.eqb Bool.eqb
       user_name value_eqb].
  rewrite String.eqb_refl. reflexivity.
Qed.

(** The creation step on a name that a row carries. *)
Lemma post_create_taken_name :
  (exists r, In r db /\ user_name r = name) ->
  UserResource.post_create db
    [("user_name", VStr name); ("user_pass", VStr pass);
     ("user_mail", VStr mail); ("user_role", VRole role)]
  = Ret (db, message "A user with this name already exists" 409).
Proof.
  intros (r & Hin & Hr).
  unfold UserResource.post_create.
  cbn [dict_getitem dict_get String.eqb Ascii.eqb Bool.eqb bind].
  assert (Hm : In r (Db.matching [("user_name", Db.CmpEq, VStr name)] db)).
  { apply matching_In. split; [exact Hin|]. cbn. rewrite Hr, String.eqb_refl. reflexivity. }
  unfold Db.count.
  destruct (Db.matching [("user_name", Db.CmpEq, VStr name)] db); [destruct Hm|].
  reflexivity.
Qed.

End CreateFresh.

(** The parser of [post] on a body that has every field. *)
Lemma parse_post_full (bid : raw Z) (name pass mail : string) (n : Z) (role : UserRole) :
  UserRole_of_int n = Some role ->
  UserResource.parse_post (UserResource.mkBody bid (Some name) (Some pass) (Some mail) (Given n))
  = inr [("user_name", VStr name); ("user_pass", VStr pass);
         ("user_mail", VStr mail); ("user_role", VRole role)].
Proof.
  intros Hn. unfold UserResource.parse_post, andthen, required, arg_str, arg_role.
  cbn [UserResource.body_user_name UserResource.body_user_pass
       UserResource.body_user_mail UserResource.body_user_role].
  now rewrite Hn.
Qed.

(** For the role User [post] goes straight to its creation step. *)
Lemma post_user_role (config : Config.t) (db : Db.table) (cookies : dict Jwt.Token)
    (bid : raw Z) (name pass mail : string) :
  UserResource.post config db cookies
    (UserResource.mkBody bid (Some name) (Some pass) (Some mail) (Given 3))
  = UserResource.post_create db
      [("user_name", VStr name); ("user_pass", VStr pass);
       ("user_mail", VStr mail); ("user_role", VRole User)].
Proof.
  unfold UserResource.post. rewrite (parse_post_full _ _ _ _ 3 User eq_refl).
  reflexivity.
Qed.

(** X6.  Self-registration: POST /user for the role User (3) with a name
    and a mail that no stored row carries is answered 201 whatever the
    cookies, and appends the row with a fresh id and the digest of the
    secret. *)
Theorem post_self_register (config : Config.t) (db : Db.table)
    (cookies : dict Jwt.Token) (bid : raw Z) (name pass mail : string) :
  (forall r, In r db -> user_name r <> name) ->
  (forall r, In r db -> user_mail r <> mail) ->
  UserResource.post config db cookies
    (UserResource.mkBody bid (Some name) (Some pass) (Some mail) (Given 3))
  = Ret ((db ++ [mkUser (Db.next_id db) name (SHA256.sha256_hexdigest pass) mail User])%list,
         mkResponse 201
           (Json [("message", VStr "The user was created successfully");
                  ("user_id", VInt (Db.next_id db));
                  ("user_name", VStr name); ("user_mail", VStr mail)])).
Proof.
  intros Hname Hmail. rewrite post_user_role.
  rewrite post_create_new_name by exact Hname.
  unfold Db.mail_taken. rewrite existsb_none; [reflexivity|].
  intros r Hr. apply String.eqb_neq. now apply Hmail.
Qed.

Lemma post_self_register_witness :
  UserResource.post Scenario.cfg Scenario.db [] Scenario.new_user_erin
  = Ret ((Scenario.db ++ [Scenario.erin])%list,
         mkResponse 201
           (Json [("message", VStr "The user was created successfully");
                  ("user_id", VInt 5);
                  ("user_name", VStr "Erin"); ("user_mail", VStr "erin@example.com")])).
Proof.
  apply (post_self_register Scenario.cfg Scenario.db [] Absent "Erin" "pw" "erin@example.com").
  - intros r Hr. cbn in Hr. intuition (subst; discriminate).
  - intros r Hr. cbn in Hr. intuition (subst; discriminate).
Defined.

(** X7.  POST /user for the role User with a name that a stored row
    carries is answered 409 and leaves the store as it is. *)
Theorem post_duplicate_name (config : Config.t) (db : Db.table)
    (cookies : dict Jwt.Token) (bid : raw Z) (name pass mail : string) :
  (exists r, In r db /\ user_name r = name) ->
  UserResource.post config db cookies
    (UserResource.mkBody bid (Some name) (Some pass) (Some mail) (Given 3))
  = Ret (db, message "A user with this name already exists" 409).
Proof.
  intros Hname. rewrite post_user_role.
  now apply post_create_taken_name.
Qed.

Lemma post_duplicate_name_witness :
  UserResource.post Scenario.cfg Scenario.db [] Scenario.another_alice
  = Ret (Scenario.db, message "A user with this name already exists" 409).
Proof.
  apply (post_duplicate_name Scenario.cfg Scenario.db [] Absent "Alice" "pw"
           "alice2@example.com").
  exists Scenario.alice. split; [cbn; auto | reflexivity].
Defined.

(** X8.  The duplicate check of [post] looks at names only: a new name
    with a mail that a stored row carries passes it, the insertion breaks
    the UNIQUE constraint of [user_mail], and the [IntegrityError] leaves
    the handler. *)
Theorem post_duplicate_mail_raises (config : Config.t) (db : Db.table)
    (cookies : dict Jwt.Token) (bid : raw Z) (name pass mail : string) :
  (forall r, In r db -> user_name r <> name) ->
  (exists r, In r db /\ user_mail r = mail) ->
  UserResource.post config db cookies
    (UserResource.mkBody bid (Some name) (Some pass) (Some mail) (Given 3))
  = Raise IntegrityError.
Proof.
  intros Hname (r & Hin & Hr). rewrite post_user_role.
  rewrite post_create_new_name by exact Hname.
  assert (Ht : Db.mail_taken db mail = true).
  { unfold Db.mail_taken. apply existsb_exists. exists r. split; [exact Hin|].
    rewrite Hr. apply String.eqb_refl. }
  now rewrite Ht.
Qed.

Lemma post_duplicate_mail_raises_witness :
  UserResource.post Scenario.cfg Scenario.db [] Scenario.erin_with_bobs_mail
  = Raise IntegrityError.
Proof.
  apply (post_duplicate_mail_raises Scenario.cfg Scenario.db [] Absent "Erin" "pw"
           "bob@example.com").
  - intros r Hr. cbn in Hr. intuition (subst; discriminate).
  - exists Scenario.bob. split; [cbn; auto | reflexivity].
Defined.

(** X9.  An account of role Admin or SAdmin is only ever created for a
    privileged caller: a 201 of POST /user for such a role means that the
    cookie held a verified token whose [user_id] selects a stored row of
    role SAdmin or Admin. *)
Theorem post_privileged_role_needs_privileged_caller (config : Config.t)
    (db db' : Db.table) (cookies : dict Jwt.Token) (b : UserResource.Body)
    (resp : Response) (n : Z) (role : UserRole) :
  UserResource.body_user_role b = Given n ->
  UserRole_of_int n = Some role ->
  role <> User ->
  UserResource.post config db cookies b = Ret (db', resp) ->
  status resp = 201 ->
  exists (token : Jwt.Token) (claims : dict value) (uid : value) (row : UserModel),
    dict_get cookies "token" = Some token /\
    Jwt.decode token (Config.JWT_SECRET config) ["HS256"] = Ret claims /\
    dict_get claims "user_id" = Some uid /\
    In row db /\
    Db.holds row ("user_id", Db.CmpEq, uid) = true /\
    (user_role row = SAdmin \/ user_role row = Admin).
Proof.
  intros Hb Hn Hrole. unfold UserResource.post.
  destruct (UserResource.parse_post b) as [r|args] eqn:Hparse.
  - intros [= <- <-] Hs. apply parse_post_abort in Hparse. lia.
  - destruct (parse_post_args _ _ Hparse)
      as (name & pass & mail & role' & n' & _ & _ & _ & Hr & Hrole' & ->).
    rewrite Hb in Hr. injection Hr as <-. rewrite Hn in Hrole'. injection Hrole' as <-.
    cbn [dict_getitem dict_get String.eqb Ascii.eqb Bool.eqb bind].
    assert (Hp : value_eqb (VRole role) (VRole SAdmin) || value_eqb (VRole role) (VRole Admin)
                 = true) by (destruct role; [reflexivity | reflexivity | contradiction]).
    rewrite Hp. unfold dict_contains, dict_getitem at 1.
    destruct (dict_get cookies "token") as [token|]; cbn [negb bind];
      [|intros [= <- <-]; discriminate].
    destruct (UserResource._authorize _ _ _ _ _) as [[|]|e] eqn:Hauth; cbn [negb bind];
      [|intros [= <- <-]; discriminate|discriminate].
    intros _ _.
    destruct (authorize_granted _ _ _ _ _ Hauth)
      as (claims & uid & row & Hd & Hc & Hin & Hh & Hwho).
    exists token, claims, uid, row. repeat split; try assumption.
    destruct Hwho as [H | [H | (_ & _ & H)]]; [now left | now right | discriminate].
Qed.

Lemma post_privileged_role_needs_privileged_caller_witness :
  exists (token : Jwt.Token) (claims : dict value) (uid : value) (row : UserModel),
    dict_get (Scenario.cookie (Scenario.token_of 1)) "token" = Some token /\
    Jwt.decode token (Config.JWT_SECRET Scenario.cfg) ["HS256"] = Ret claims /\
    dict_get claims "user_id" = Some uid /\
    In row Scenario.db /\
    Db.holds row ("user_id", Db.CmpEq, uid) = true /\
    (user_role row = SAdmin \/ user_role row = Admin).
Proof.
  refine (post_privileged_role_needs_privileged_caller Scenario.cfg Scenario.db
            Scenario.db_with_dave (Scenario.cookie (Scenario.token_of 1))
            Scenario.new_admin_dave _ 2 Admin eq_refl eq_refl _ eq_refl eq_refl).
  discriminate.
Defined.

Lemma NoDup_snoc {A : Type} (l : list A) (x : A) :
  NoDup l -> ~ In x l -> NoDup (l ++ [x]).
Proof.
  induction l as [|y l IH]; simpl; intros Hnd Hx.
  - constructor; [tauto | constructor].
  - inversion Hnd as [|? ? Hy Hl]; subst. constructor.
    + intros Hin. apply in_app_or in Hin. destruct Hin as [Hin | [-> | []]]; tauto.
    + apply IH; tauto.
Qed.

(** What [post] can do to the store: nothing, or append one row with a
    fresh id and a mail that no row carried. *)
Lemma post_store_inv (config : Config.t) (db db' : Db.table)
    (cookies : dict Jwt.Token) (b : UserResource.Body) (resp : Response) :
  UserResource.post config db cookies b = Ret (db', resp) ->
  db' = db \/
  exists (name pass mail : string) (role : UserRole),
    Db.mail_taken db mail = false /\
    db' = (db ++ [mkUser (Db.next_id db) name pass mail role])%list.
Proof.
  assert (Hcreate : forall name pass mail role,
    UserResource.post_create db
      [("user_name", VStr name); ("user_pass", VStr pass);
       ("user_mail", VStr mail); ("user_role", VRole role)] = Ret (db', resp) ->
    db' = db \/
    exists (name pass mail : string) (role : UserRole),
      Db.mail_taken db mail = false /\
      db' = (db ++ [mkUser (Db.next_id db) name pass mail role])%list).
  { intros name pass mail role. unfold UserResource.post_create.
    cbn [dict_getitem dict_get String.eqb Ascii.eqb Bool.eqb bind
         UserResource.as_str UserResource.as_role].
    destruct (Db.count db _ =? 0); [|intros [= <- <-]; now left].
    unfold Db.insert. destruct (Db.mail_taken db mail) eqn:Hm; [discriminate|].
    cbn [bind]. unfold Db.fetchone, try_except_else.
    destruct (hd_error _) as [row|]; [|discriminate].
    cbn. intros [= <- <-]. right.
    exists name, (SHA256.sha256_hexdigest pass), mail, role. now split. }
  unfold UserResource.post.
  destruct (UserResource.parse_post b) as [r|args] eqn:Hparse.
  - intros [= <- <-]. now left.
  - destruct (parse_post_args _ _ Hparse)
      as (name & pass & mail & role & n & _ & _ & _ & _ & _ & ->).
    cbn [dict_getitem dict_get String.eqb Ascii.eqb Bool.eqb bind].
    destruct (value_eqb (VRole role) (VRole SAdmin) || value_eqb (VRole role) (VRole Admin));
      [|apply Hcreate].
    destruct (dict_contains cookies "token"); cbn [negb];
      [|intros [= <- <-]; now left].
    destruct (dict_getitem cookies "token") as [token|]; [|discriminate].
    cbn [bind].
    destruct (UserResource._authorize _ _ _ _ _) as [[|]|e]; cbn [negb bind];
      [apply Hcreate | intros [= <- <-]; now left | discriminate].
Qed.

(** X10.  [post] keeps the store well-formed: if the ids and the mails
    of the stored rows are distinct before, they are distinct after, and
    no stored row is lost or changed. *)
Theorem post_keeps_store_wellformed (config : Config.t) (db db' : Db.table)
    (cookies : dict Jwt.Token) (b : UserResource.Body) (resp : Response) :
  NoDup (map user_id db) ->
  NoDup (map user_mail db) ->
  UserResource.post config db cookies b = Ret (db', resp) ->
  NoDup (map user_id db') /\ NoDup (map user_mail db') /\
  forall r, In r db -> In r db'.
Proof.
  intros Hids Hmails Hpost.
  destruct (post_store_inv _ _ _ _ _ _ Hpost)
    as [-> | (name & pass & mail & role & Hfree & ->)]; [auto|].
  rewrite !map_app. cbn [map user_id user_mail]. repeat split.
  - apply NoDup_snoc; [exact Hids|]. intros Hin. apply in_map_iff in Hin.
    destruct Hin as (r & Hr & Hin). apply next_id_fresh in Hin. lia.
  - apply NoDup_snoc; [exact Hmails|]. intros Hin. apply in_map_iff in Hin.
    destruct Hin as (r & Hr & Hin).
    pose proof (existsb_none_inv _ _ r Hfree Hin) as Hne. cbn in Hne.
    rewrite Hr, String.eqb_refl in Hne. discriminate.
  - intros r Hr. apply in_or_app. now left.
Qed.

Lemma post_keeps_store_wellformed_witness :
  NoDup (map user_id Scenario.db_with_dave) /\
  NoDup (map user_mail Scenario.db_with_dave) /\
  forall r, In r Scenario.db -> In r Scenario.db_with_dave.
Proof.
  refine (post_keeps_store_wellformed Scenario.cfg Scenario.db Scenario.db_with_dave
            (Scenario.cookie (Scenario.token_of 1)) Scenario.new_admin_dave _ _ _ eq_refl).
  - repeat constructor; cbn; intuition discriminate.
  - repeat constructor; cbn; intuition discriminate.
Defined.

(** ** DELETE /user *)

Lemma holds_id (r : UserModel) (t : Z) :
  Db.holds r ("user_id", Db.CmpEq, VInt t) = (user_id r =? t).
Proof. reflexivity. Qed.

(** [delete] once the cookie holds a token and the decision is True. *)
Lemma delete_authorized (config : Config.t) (db : Db.table) (cookies : dict Jwt.Token)
    (token : Jwt.Token) (b : UserResource.Body) (t : Z) :
  UserResource.body_user_id b = Given t ->
  dict_get cookies "token" = Some token ->
  UserResource._authorize config db token (VInt t) (VBool false) = Ret true ->
  UserResource.delete config db cookies b =
  Ret (filter (fun r => negb (user_id r =? t)) db,
       if Z.of_nat (length (filter (fun r => user_id r =? t) db)) =? 0
       then message ("User with user_id " ++ str_of_int t ++ " does not exist") 404
       else message ("Successfully deleted user with user_id " ++ str_of_int t) 200).
Proof.
  intros Hb Hcookie Hauth.
  unfold UserResource.delete, UserResource.parse_delete, andthen, required, arg_int.
  rewrite Hb. unfold dict_contains, dict_getitem at 1. rewrite Hcookie.
  cbn [negb bind dict_getitem dict_get String.eqb Ascii.eqb Bool.eqb].
  rewrite Hauth. cbn [negb bind]. unfold Db.delete. cbn [fst snd].
  rewrite (filter_ext (fun r => negb (Db.holds r ("user_id", Db.CmpEq, VInt t)))
             (fun r => negb (user_id r =? t))) by reflexivity.
  rewrite (filter_ext (fun r => Db.holds r ("user_id", Db.CmpEq, VInt t))
             (fun r => user_id r =? t)) by reflexivity.
  destruct (Z.of_nat _ =? 0); reflexivity.
Qed.

(** A 200 of [delete], taken apart. *)
Lemma delete_ok_inv (config : Config.t) (db db' : Db.table) (cookies : dict Jwt.Token)
    (b : UserResource.Body) (resp : Response) :
  UserResource.delete config db cookies b = Ret (db', resp) ->
  status resp = 200 ->
  exists (t : Z) (token : Jwt.Token),
    UserResource.body_user_id b = Given t /\
    dict_get cookies "token" = Some token /\
    UserResource._authorize config db token (VInt t) (VBool false) = Ret true /\
    db' = filter (fun r => negb (user_id r =? t)) db /\
    filter (fun r => user_id r =? t) db <> [].
Proof.
  unfold UserResource.delete, UserResource.parse_delete, andthen, required, arg_int.
  destruct (UserResource.body_user_id b) as [|t|] eqn:Hb;
    try (intros [= <- <-]; discriminate).
  unfold dict_contains, dict_getitem at 1.
  destruct (dict_get cookies "token") as [token|]; cbn [negb bind];
    [|intros [= <- <-]; discriminate].
  cbn [dict_getitem dict_get String.eqb Ascii.eqb Bool.eqb bind].
  destruct (UserResource._authorize _ _ _ _ _) as [[|]|e] eqn:Hauth; cbn [negb bind];
    [|intros [= <- <-]; discriminate|discriminate].
  unfold Db.delete. cbn [fst snd].
  rewrite (filter_ext (fun r => negb (Db.holds r ("user_id", Db.CmpEq, VInt t)))
             (fun r => negb (user_id r =? t))) by reflexivity.
  rewrite (filter_ext (fun r => Db.holds r ("user_id", Db.CmpEq, VInt t))
             (fun r => user_id r =? t)) by reflexivity.
  destruct (filter (fun r => user_id r =? t) db) as [|r0 l] eqn:Hrows.
  - cbn. intros [= <- <-]. discriminate.
  - destruct (Z.of_nat (length (r0 :: l)) =? 0) eqn:Hz; [cbn in Hz; lia|].
    intros [= <- <-] _. exists t, token.
    split; [reflexivity|]. split; [reflexivity|]. split; [exact Hauth|].
    split; [reflexivity|]. rewrite Hrows. discriminate.
Qed.

(** X11.  A 200 of DELETE /user removes the rows of the requested id,
    which did exist, and nothing else: the rows of every other id are
    kept, in order. *)
Theorem delete_removes_target_only (config : Config.t) (db db' : Db.table)
    (cookies : dict Jwt.Token) (b : UserResource.Body) (resp : Response) :
  UserResource.delete config db cookies b = Ret (db', resp) ->
  status resp = 200 ->
  exists t : Z,
    UserResource.body_user_id b = Given t /\
    (exists r, In r db /\ user_id r = t) /\
    db' = filter (fun r => negb (user_id r =? t)) db /\
    forall r, In r db' <-> In r db /\ user_id r <> t.
Proof.
  intros Hdel Hs.
  destruct (delete_ok_inv _ _ _ _ _ _ Hdel Hs) as (t & token & Hb & _ & _ & -> & Hne).
  exists t. split; [exact Hb|]. split; [|split; [reflexivity|]].
  - destruct (filter (fun r => user_id r =? t) db) as [|r l] eqn:Hrows; [contradiction|].
    assert (Hin : In r (filter (fun r => user_id r =? t) db))
      by (rewrite Hrows; now left).
    apply filter_In in Hin. exists r. split; [tauto|]. now apply Z.eqb_eq.
  - intros r. rewrite filter_In. rewrite negb_true_iff, Z.eqb_neq. tauto.
Qed.

Lemma delete_removes_target_only_witness :
  exists t : Z,
    UserResource.body_user_id (Scenario.delete_user 2) = Given t /\
    (exists r, In r Scenario.db /\ user_id r = t) /\
    [Scenario.root; Scenario.bob; Scenario.carol]
      = filter (fun r => negb (user_id r =? t)) Scenario.db /\
    forall r, In r [Scenario.root; Scenario.bob; Scenario.carol]
              <-> In r Scenario.db /\ user_id r <> t.
Proof.
  exact (delete_removes_target_only Scenario.cfg Scenario.db
           [Scenario.root; Scenario.bob; Scenario.carol]
           (Scenario.cookie (Scenario.token_of 2)) (Scenario.delete_user 2)
           _ eq_refl eq_refl).
Defined.

(** X12.  In the store as DELETE /user leaves it when it has removed the
    account that a token names (answer 200), every decision for that
    token, whatever the target and [change_admin], raises [TypeError]; it
    does not return False.  (Nothing is said of later stores: a row that
    is created afterwards may get the same id.) *)
Theorem delete_own_account_stales_token (config : Config.t) (db db' : Db.table)
    (cookies : dict Jwt.Token) (b : UserResource.Body) (resp : Response)
    (token : Jwt.Token) (claims : dict value) (c : Z) :
  Jwt.decode token (Config.JWT_SECRET config) ["HS256"] = Ret claims ->
  dict_get claims "user_id" = Some (VInt c) ->
  UserResource.body_user_id b = Given c ->
  UserResource.delete config db cookies b = Ret (db', resp) ->
  status resp = 200 ->
  forall user_id change_admin : value,
    UserResource._authorize config db' token user_id change_admin = Raise TypeError.
Proof.
  intros Hdecode Hclaim Hb Hdel Hs user_id change_admin.
  destruct (delete_ok_inv _ _ _ _ _ _ Hdel Hs) as (t & _ & Hb' & _ & _ & -> & _).
  rewrite Hb in Hb'. injection Hb' as <-.
  apply (authorize_stale_caller config _ token claims c Hdecode Hclaim).
  unfold Db.execute.
  cbn [Db.where_ Db.select_from Db.sel_where Db.sel_limit app].
  apply matching_none. intros r Hr. apply filter_In in Hr. destruct Hr as [_ Hr].
  cbn [forallb]. rewrite holds_id. apply negb_true_iff in Hr. now rewrite Hr.
Qed.

Lemma delete_own_account_stales_token_witness :
  UserResource._authorize Scenario.cfg [Scenario.root; Scenario.bob; Scenario.carol]
    (Scenario.token_of 2) (VInt 2) (VBool false) = Raise TypeError.
Proof.
  exact (delete_own_account_stales_token Scenario.cfg Scenario.db
           [Scenario.root; Scenario.bob; Scenario.carol]
           (Scenario.cookie (Scenario.token_of 2)) (Scenario.delete_user 2) _
           (Scenario.token_of 2) [("user_id", VInt 2)] 2
           eq_refl eq_refl eq_refl eq_refl eq_refl (VInt 2) (VBool false)).
Defined.

Lemma filter_filter_implied {A : Type} (p q : A -> bool) (l : list A) :
  (forall x, p x = true -> q x = true) ->
  filter p (filter q l) = filter p l.
Proof.
  intros H. induction l as [|x l IH]; simpl; [reflexivity|].
  destruct (q x) eqn:Hq; simpl.
  - now rewrite IH.
  - destruct (p x) eqn:Hp; [|exact IH]. rewrite (H x Hp) in Hq. discriminate.
Qed.

Lemma filter_filter_excluded {A : Type} (p : A -> bool) (l : list A) :
  filter p (filter (fun x => negb (p x)) l) = [].
Proof.
  apply filter_nothing. intros y Hy. apply filter_In in Hy.
  destruct Hy as [_ Hy]. now apply negb_true_iff in Hy.
Qed.

Section Deleting.

Variable config : Config.t.
Variable db : Db.table.
Variable token : Jwt.Token.
Variable claims : dict value.
Variable c : Z.
Variable row : UserModel.
Variable cookies : dict Jwt.Token.
Variable b : UserResource.Body.

Hypothesis Hdecode :
  Jwt.decode token (Config.JWT_SECRET config) ["HS256"] = Ret claims.
Hypothesis Hclaim : dict_get claims "user_id" = Some (VInt c).
Hypothesis Hrow :
  Db.fetchone (Db.execute db (Db.where_ Db.select_from "user_id" Db.CmpEq (VInt c)))
    = Ret (Some row).
Hypothesis Hcookie : dict_get cookies "token" = Some token.

(** X13.  Every caller with a stored record, whatever the role, may delete
    their own account: DELETE /user with the caller's id is answered 200
    and removes the rows of that id. *)
Theorem delete_own_account :
  UserResource.body_user_id b = Given c ->
  UserResource.delete config db cookies b =
  Ret (filter (fun r => negb (user_id r =? c)) db,
       message ("Successfully deleted user with user_id " ++ str_of_int c) 200).
Proof.
  intros Hb.
  destruct (select_by_id_row _ _ _ Hrow) as [Hin Hid].
  rewrite (delete_authorized config db cookies token b c Hb Hcookie).
  - destruct (filter (fun r => user_id r =? c) db) as [|r0 l] eqn:Hrows; [|reflexivity].
    assert (Hin' : In row (filter (fun r => user_id r =? c) db)).
    { apply filter_In. split; [exact Hin|]. now apply Z.eqb_eq. }
    rewrite Hrows in Hin'. destruct Hin'.
  - rewrite (authorize_known config db token claims c Hdecode Hclaim row Hrow).
    destruct (UserRole_eqb (user_role row) SAdmin || UserRole_eqb (user_role row) Admin);
      [reflexivity|].
    cbn. now rewrite Z.eqb_refl.
Qed.

(** X14.  A privileged caller deletes another, existing account, and then
    asks again: the first request is answered 200 and removes the rows of
    that id, the second is answered 404 and changes nothing. *)
Theorem delete_twice (t : Z) :
  user_role row = SAdmin \/ user_role row = Admin ->
  UserResource.body_user_id b = Given t ->
  t <> c ->
  (exists r, In r db /\ user_id r = t) ->
  let db' := filter (fun r => negb (user_id r =? t)) db in
  UserResource.delete config db cookies b
    = Ret (db', message ("Successfully deleted user with user_id " ++ str_of_int t) 200) /\
  UserResource.delete config db' cookies b
    = Ret (db', message ("User with user_id " ++ str_of_int t ++ " does not exist") 404).
Proof.
  intros Hpriv Hb Hne (r & Hin & Hr). cbn zeta.
  assert (Hp : UserRole_eqb (user_role row) SAdmin || UserRole_eqb (user_role row) Admin
               = true) by (destruct Hpriv as [-> | ->]; reflexivity).
  split.
  - rewrite (delete_authorized config db cookies token b t Hb Hcookie).
    + destruct (filter (fun r => user_id r =? t) db) as [|r0 l] eqn:Hrows; [|reflexivity].
      assert (Hin' : In r (filter (fun r => user_id r =? t) db)).
      { apply filter_In. split; [exact Hin|]. now apply Z.eqb_eq. }
      rewrite Hrows in Hin'. destruct Hin'.
    + rewrite (authorize_known config db token claims c Hdecode Hclaim row Hrow).
      now rewrite Hp.
  - assert (Hrow' :
      Db.fetchone (Db.execute (filter (fun r => negb (user_id r =? t)) db)
                     (Db.where_ Db.select_from "user_id" Db.CmpEq (VInt c)))
      = Ret (Some row)).
    { rewrite <- Hrow. unfold Db.execute.
      cbn [Db.where_ Db.select_from Db.sel_where Db.sel_limit app].
      unfold Db.matching. rewrite filter_filter_implied; [reflexivity|].
      intros x Hx. cbn [forallb] in Hx. rewrite holds_id, andb_true_r in Hx.
      apply Z.eqb_eq in Hx. apply negb_true_iff, Z.eqb_neq. lia. }
    rewrite (delete_authorized config _ cookies token b t Hb Hcookie).
    + rewrite filter_filter_excluded. cbn [length Z.of_nat Z.eqb].
      rewrite filter_filter_implied by auto. reflexivity.
    + rewrite (authorize_known config _ token claims c Hdecode Hclaim row Hrow').
      now rewrite Hp.
Qed.

End Deleting.

Lemma delete_own_account_witness :
  UserResource.delete Scenario.cfg Scenario.db (Scenario.cookie (Scenario.token_of 3))
    (Scenario.delete_user 3)
  = Ret ([Scenario.root; Scenario.alice; Scenario.carol],
         message "Successfully deleted user with user_id 3" 200).
Proof.
  exact (delete_own_account Scenario.cfg Scenario.db (Scenario.token_of 3)
           [("user_id", VInt 3)] 3 Scenario.bob (Scenario.cookie (Scenario.token_of 3))
           (Scenario.delete_user 3) eq_refl eq_refl eq_refl eq_refl eq_refl).
Defined.

Lemma delete_twice_witness :
  UserResource.delete Scenario.cfg Scenario.db (Scenario.cookie (Scenario.token_of 4))
    (Scenario.delete_user 2)
  = Ret ([Scenario.root; Scenario.bob; Scenario.carol],
         message "Successfully deleted user with user_id 2" 200) /\
  UserResource.delete Scenario.cfg [Scenario.root; Scenario.bob; Scenario.carol]
    (Scenario.cookie (Scenario.token_of 4)) (Scenario.delete_user 2)
  = Ret ([Scenario.root; Scenario.bob; Scenario.carol],
         message "User with user_id 2 does not exist" 404).
Proof.
  refine (delete_twice Scenario.cfg Scenario.db (Scenario.token_of 4)
            [("user_id", VInt 4)] 4 Scenario.carol (Scenario.cookie (Scenario.token_of 4))
            (Scenario.delete_user 2) eq_refl eq_refl eq_refl eq_refl 2
            (or_intror eq_refl) eq_refl _ _).
  - discriminate.
  - exists Scenario.alice. split; [cbn; auto | reflexivity].
Defined.

(** ** PUT /user *)

Lemma parse_put_abort (b : UserResource.Body) (r : Response) :
  UserResource.parse_put b = inl r -> status r = 400.
Proof.
  unfold UserResource.parse_put, andthen, required, arg_int, arg_role.
  destruct (UserResource.body_user_id b); try (intros [= <-]; reflexivity).
  destruct (UserResource.body_user_role b) as [|n|]; try discriminate;
    try (intros [= <-]; reflexivity).
  destruct (UserRole_of_int n); [discriminate | intros [= <-]; reflexivity].
Qed.

(** X15.  PUT /user never changes the store and never answers 200, 403
    or 404: it ends in 400 (the parser), in 401 (no token cookie), or in
    the [KeyError] on [user_admin]. *)
Theorem put_never_writes (config : Config.t) (db : Db.table)
    (cookies : dict Jwt.Token) (b : UserResource.Body) :
  match UserResource.put config db cookies b with
  | Ret (db', resp) => db' = db /\ (status resp = 400 \/ status resp = 401)
  | Raise e => e = KeyError "user_admin"
  end.
Proof.
  destruct (UserResource.parse_put b) as [r|args] eqn:Hparse.
  - unfold UserResource.put. rewrite Hparse. split; [reflexivity|].
    left. eapply parse_put_abort; eassumption.
  - destruct (dict_contains cookies "token") eqn:Hcookie.
    + now rewrite (put_raises_KeyError config db cookies b args Hparse Hcookie).
    + unfold UserResource.put. rewrite Hparse, Hcookie. cbn. auto.
Qed.

Lemma update_rows_none (t : Db.table) (cond : string * Db.cmp * value)
    (values : dict value) :
  (forall r, In r t -> Db.holds r cond = false) ->
  Db.update_rows t cond values = Ret (t, 0).
Proof.
  induction t as [|r t IH]; intros H; [reflexivity|].
  cbn [Db.update_rows]. rewrite (H r (or_introl eq_refl)).
  rewrite IH; [reflexivity|]. intros r' Hr'. apply H. now right.
Qed.

(** What the parser of [put] returns when it passes. *)
Lemma parse_put_args (b : UserResource.Body) (args : dict value) :
  UserResource.parse_put b = inr args ->
  exists (t : Z) (role : value),
    UserResource.body_user_id b = Given t /\
    args = [("user_id", VInt t);
            ("user_name", arg_str VNone (UserResource.body_user_name b));
            ("user_pass", arg_str VNone (UserResource.body_user_pass b));
            ("user_mail", arg_str VNone (UserResource.body_user_mail b));
            ("user_role", role)].
Proof.
  unfold UserResource.parse_put, andthen, required, arg_int, arg_role.
  destruct (UserResource.body_user_id b) as [|t|]; try discriminate.
  destruct (UserResource.body_user_role b) as [|n|]; try discriminate.
  - intros [= <-]. exists t, VNone. now split.
  - destruct (UserRole_of_int n) as [r|]; [|discriminate].
    intros [= <-]. exists t, (VRole r). now split.
Qed.

(** X16.  The update step of [put] on an id that no stored row carries:
    404, and the store is as it was, whatever fields the body names. *)
Theorem put_update_missing (db : Db.table) (b : UserResource.Body)
    (args : dict value) (t : Z) :
  UserResource.parse_put b = inr args ->
  UserResource.body_user_id b = Given t ->
  (forall r, In r db -> user_id r <> t) ->
  UserResource.put_update db args
  = Ret (db, message ("User with user_id " ++ str_of_int t ++ " does not exist") 404).
Proof.
  intros Hparse Hb Hnone.
  destruct (parse_put_args _ _ Hparse) as (t' & role & Hb' & ->).
  rewrite Hb in Hb'. injection Hb' as <-.
  unfold UserResource.put_update, dict_del.
  cbn [dict_contains dict_get dict_remove dict_getitem String.eqb Ascii.eqb Bool.eqb bind].
  unfold Db.update.
  cbn [forallb fst is_column columns existsb String.eqb Ascii.eqb Bool.eqb orb andb negb].
  rewrite update_rows_none.
  - cbn [bind fst snd Z.eqb]. rewrite orb_true_r. reflexivity.
  - intros r Hr. rewrite holds_id. apply Z.eqb_neq. now apply Hnone.
Qed.

Lemma put_update_missing_witness :
  UserResource.put_update Scenario.db
    [("user_id", VInt 7); ("user_name", VNone); ("user_pass", VNone);
     ("user_mail", VNone); ("user_role", VNone)]
  = Ret (Scenario.db, message "User with user_id 7 does not exist" 404).
Proof.
  apply (put_update_missing Scenario.db
           (UserResource.mkBody (Given 7) None None None Absent) _ 7 eq_refl eq_refl).
  intros r Hr. cbn in Hr. intuition (subst; discriminate).
Defined.

Section Updating.

Variable t : Z.
Variables name pass mail : string.
Variable role : UserRole.

(** The UPDATE of [put] when the body names all four fields. *)
Lemma update_rows_all_fields (db : Db.table) :
  Db.update_rows db ("user_id", Db.CmpEq, VInt t)
    [("user_name", VStr name); ("user_pass", VStr pass);
     ("user_mail", VStr mail); ("user_role", VRole role)]
  = Ret (map (fun r => if user_id r =? t then mkUser (user_id r) name pass mail role else r) db,
         Z.of_nat (length (filter (fun r => user_id r =? t) db))).
Proof.
  induction db as [|r db IH]; [reflexivity|].
  cbn [Db.update_rows map filter]. rewrite holds_id, IH.
  destruct (user_id r =? t); [|reflexivity].
  cbn [Db.assign_all Db.assign String.eqb Ascii.eqb Bool.eqb bind fst snd
       Models.user_id Models.user_name Models.user_pass Models.user_mail
       Models.user_role length].
  f_equal. f_equal. lia.
Qed.

(** X17.  The update step of [put], given all four fields and answering
    200, writes the submitted secret into [user_pass] as it is, where
    [post] writes its SHA-256 digest: afterwards a row carries the target
    id, every such row holds exactly the submitted name, secret, mail and
    role, and the rows of other ids are rows of the store before. *)
Theorem put_update_stores_plaintext (db db' : Db.table) (resp : Response) :
  UserResource.put_update db
    [("user_id", VInt t); ("user_name", VStr name); ("user_pass", VStr pass);
     ("user_mail", VStr mail); ("user_role", VRole role)]
  = Ret (db', resp) ->
  status resp = 200 ->
  (exists r, In r db' /\ user_id r = t) /\
  (forall r, In r db' -> user_id r = t -> r = mkUser t name pass mail role) /\
  (forall r, In r db' -> user_id r <> t -> In r db).
Proof.
  unfold UserResource.put_update, dict_del.
  cbn [dict_contains dict_get dict_remove dict_getitem String.eqb Ascii.eqb Bool.eqb bind].
  unfold Db.update.
  cbn [forallb fst is_column columns existsb String.eqb Ascii.eqb Bool.eqb orb andb negb].
  rewrite update_rows_all_fields. cbn [bind fst snd].
  destruct (Db.distinct _ || _); [|discriminate]. cbn [bind fst snd].
  destruct (filter (fun r => user_id r =? t) db) as [|r0 l] eqn:Hrows.
  - cbn. intros [= <- <-]. discriminate.
  - destruct (Z.of_nat (length (r0 :: l)) =? 0) eqn:Hz; [cbn in Hz; lia|].
    intros [= <- <-] _.
    assert (Hr0 : In r0 db /\ (user_id r0 =? t) = true).
    { apply (filter_In (fun r => user_id r =? t)). rewrite Hrows. now left. }
    destruct Hr0 as [Hin0 Hid0]. repeat split.
    + exists (mkUser (user_id r0) name pass mail role). split.
      * apply in_map_iff. exists r0. rewrite Hid0. now split.
      * cbn. now apply Z.eqb_eq.
    + intros r Hr Hid. apply in_map_iff in Hr. destruct Hr as (x & Hx & Hin).
      destruct (Z.eqb_spec (user_id x) t) as [Heq|Hne].
      * subst r. now rewrite Heq.
      * subst r. contradiction.
    + intros r Hr Hid. apply in_map_iff in Hr. destruct Hr as (x & Hx & Hin).
      destruct (Z.eqb_spec (user_id x) t) as [Heq|Hne].
      * subst r. cbn in Hid. contradiction.
      * now subst r.
Qed.

End Updating.

Lemma put_update_stores_plaintext_witness :
  (exists r, In r [Scenario.root; mkUser 2 "Al" "hunter2" "al@example.com" User;
                   Scenario.bob; Scenario.carol] /\ user_id r = 2) /\
  (forall r, In r [Scenario.root; mkUser 2 "Al" "hunter2" "al@example.com" User;
                   Scenario.bob; Scenario.carol] ->
             user_id r = 2 -> r = mkUser 2 "Al" "hunter2" "al@example.com" User) /\
  (forall r, In r [Scenario.root; mkUser 2 "Al" "hunter2" "al@example.com" User;
                   Scenario.bob; Scenario.carol] ->
             user_id r <> 2 -> In r Scenario.db).
Proof.
  exact (put_update_stores_plaintext 2 "Al" "hunter2" "al@example.com" User
           Scenario.db _ _ eq_refl eq_refl).
Defined.

(** ** The exercise resource *)

(** What the opening of the exercise handlers answers when it stops. *)
Lemma access_denied (config : Config.t) (db : Db.table) (cookies : dict Jwt.Token)
    (readOnly : bool) (r : Response) :
  ExerciseResource.access config db cookies readOnly = Ret (Some r) ->
  r = message "Login required" 401 \/ r = message "No Access" 403.
Proof.
  unfold ExerciseResource.access.
  destruct (dict_contains cookies "token"); cbn [negb]; [|intros [= <-]; now left].
  destruct (dict_getitem cookies "token") as [token|]; [|discriminate]. cbn [bind].
  destruct (ExerciseResource._authorize config db token readOnly) as [v|]; [|discriminate].
  cbn [bind]. destruct (truthy v); cbn [negb]; [discriminate|].
  intros [= <-]. now right.
Qed.

(** X18.  No request passes the access check that opens POST, PUT and
    DELETE /exercise: it answers 401 or 403, or an exception leaves it.
    So DELETE /exercise never removes an exercise: when it answers, the
    table is as it was and the status is 400, 401 or 403. *)
Theorem exercise_write_never_passes (config : Config.t) (db : Db.table)
    (cookies : dict Jwt.Token) (exercises : list ExerciseModel) (exercise_id : raw Z) :
  ExerciseResource.access config db cookies false <> Ret None /\
  match ExerciseResource.delete config exercises db cookies exercise_id with
  | Ret (exercises', resp) =>
      exercises' = exercises /\
      (status resp = 400 \/ status resp = 401 \/ status resp = 403)
  | Raise _ => True
  end.
Proof.
  assert (Hnever : ExerciseResource.access config db cookies false <> Ret None).
  { unfold ExerciseResource.access.
    destruct (dict_contains cookies "token"); cbn [negb]; [|discriminate].
    destruct (dict_getitem cookies "token") as [token|]; [|discriminate]. cbn [bind].
    destruct (ExerciseResource._authorize config db token false) as [v|] eqn:Hauth;
      [|discriminate].
    apply exercise_write_never_granted in Hauth. subst v. discriminate. }
  split; [exact Hnever|].
  unfold ExerciseResource.delete, ExerciseResource.parse_delete, andthen, required, arg_int.
  destruct exercise_id as [|n|]; cbn [bind]; auto.
  destruct (ExerciseResource.access config db cookies false) as [[r|]|e] eqn:Hacc;
    cbn [bind]; [|contradiction|exact I].
  split; [reflexivity|].
  destruct (access_denied _ _ _ _ _ Hacc) as [-> | ->]; cbn; auto.
Qed.

Lemma entries_of_fold {Row : Type} (key : Row -> Z) (view : Row -> dict value)
    (rows : list Row) (acc : list (Z * dict value)) (k : Z) (e : dict value) :
  In (k, e) (fold_left (fun result row => zdict_set result (key row) (view row)) rows acc) ->
  In (k, e) acc \/ exists row, In row rows /\ k = key row /\ e = view row.
Proof.
  revert acc; induction rows as [|r rows IH]; intros acc; simpl.
  - now left.
  - intros H. destruct (IH _ H) as [H'|(row & Hin & Hk & He)].
    + destruct (zdict_set_In _ _ _ _ _ H') as [H''|[= -> ->]]; [now left|].
      right. exists r. repeat split. now left.
    + right. exists row. repeat split; auto.
Qed.

Lemma length_of_fold {Row : Type} (key : Row -> Z) (view : Row -> dict value)
    (rows : list Row) (acc : list (Z * dict value)) :
  (length (fold_left (fun result row => zdict_set result (key row) (view row)) rows acc)
   <= length acc + length rows)%nat.
Proof.
  revert acc; induction rows as [|r rows IH]; intros acc; simpl; [lia|].
  specialize (IH (zdict_set acc (key r) (view r))).
  pose proof (zdict_set_length acc (key r) (view r)). lia.
Qed.

Lemma slice_to_In {A : Type} (l : list A) (n : Z) (x : A) :
  In x (ExerciseResource.slice_to l n) -> In x l.
Proof.
  unfold ExerciseResource.slice_to. destruct (n <? 0); apply firstn_In.
Qed.

(** What the parser of GET /exercise returns when it passes. *)
Lemma exercise_parse_get_args (q : ExerciseResource.GetQuery) (args : dict value) :
  ExerciseResource.parse_get q = inr args ->
  ExerciseResource.get_exercise_id q <> Invalid /\
  args =
    [("exercise_id", match ExerciseResource.get_exercise_id q with
                     | Given n => VInt n
                     | _ => VNone
                     end);
     ("exercise_title", arg_str VNone (ExerciseResource.get_exercise_title q));
     ("exercise_description", arg_str VNone (ExerciseResource.get_exercise_description q));
     ("exercise_type", arg_str VNone (ExerciseResource.get_exercise_type q));
     ("exercise_content", arg_str VNone (ExerciseResource.get_exercise_content q))].
Proof.
  unfold ExerciseResource.parse_get, andthen, arg_int.
  destruct (ExerciseResource.get_exercise_id q); try discriminate;
    intros [= <-]; split; [discriminate | reflexivity | discriminate | reflexivity].
Qed.

(** A 200 of GET /exercise comes out of its selection step. *)
Lemma exercise_get_ok_inv (config : Config.t) (str_of_type : ExerciseType -> string)
    (exercises : list ExerciseModel) (db : Db.table) (cookies : dict Jwt.Token)
    (q : ExerciseResource.GetQuery) (res : list (Z * dict value)) :
  ExerciseResource.get config str_of_type exercises db cookies q
    = Ret (mkResponse 200 (JsonUsers res)) ->
  exists args,
    ExerciseResource.parse_get q = inr args /\
    ExerciseResource.get_select config str_of_type exercises args
      = Ret (mkResponse 200 (JsonUsers res)).
Proof.
  unfold ExerciseResource.get.
  destruct (ExerciseResource.parse_get q) as [r|args] eqn:Hparse.
  - unfold ExerciseResource.parse_get, andthen, arg_int in Hparse.
    destruct (ExerciseResource.get_exercise_id q); try discriminate.
    injection Hparse as <-. discriminate.
  - destruct (ExerciseResource.access config db cookies true) as [[r|]|e] eqn:Hacc;
      cbn [bind]; [|eauto|discriminate].
    destruct (access_denied _ _ _ _ _ Hacc) as [-> | ->]; discriminate.
Qed.

Section ExerciseSelect.

Variable config : Config.t.
Variable str_of_type : ExerciseType -> string.
Variable exercises : list ExerciseModel.
Variables idv titlev descv typev contentv : value.

(** The WHERE clauses that GET /exercise composes from its arguments. *)
Lemma exercise_get_select_result :
  ExerciseResource.get_select config str_of_type exercises
    [("exercise_id", idv); ("exercise_title", titlev); ("exercise_description", descv);
     ("exercise_type", typev); ("exercise_content", contentv)]
  = let query :=
      ((if truthy idv && negb (ExerciseResource.below_one idv)
        then [("exercise_id", idv)] else [])
       ++ (if truthy titlev then [("exercise_title", titlev)] else [])
       ++ (if truthy descv then [("exercise_description", descv)] else [])
       ++ (if truthy typev then [("exercise_type", typev)] else [])
       ++ (if truthy contentv then [("exercise_content", contentv)] else []))%list in
    let result :=
      fold_left (fun result row =>
                   zdict_set result (exercise_id row)
                     (ExerciseResource.exercise_json str_of_type row))
                (exercise_select exercises query) [] in
    Ret (mkResponse 200
           (JsonUsers
              (if Z.of_nat (length result) >? Config.MAX_ITEMS_RETURNED config
               then ExerciseResource.slice_to result (Config.MAX_ITEMS_RETURNED config)
               else result))).
Proof.
  unfold ExerciseResource.get_select.
  cbn [dict_getitem dict_get String.eqb Ascii.eqb Bool.eqb bind].
  destruct (truthy idv), (ExerciseResource.below_one idv), (truthy titlev),
    (truthy descv), (truthy typev), (truthy contentv); reflexivity.
Qed.

End ExerciseSelect.

(** X19.  With a non-negative [MAX_ITEMS_RETURNED], a 200 of GET /exercise
    never holds more than [MAX_ITEMS_RETURNED] exercises. *)
Theorem exercise_get_capped (config : Config.t) (str_of_type : ExerciseType -> string)
    (exercises : list ExerciseModel) (db : Db.table) (cookies : dict Jwt.Token)
    (q : ExerciseResource.GetQuery) (res : list (Z * dict value)) :
  0 <= Config.MAX_ITEMS_RETURNED config ->
  ExerciseResource.get config str_of_type exercises db cookies q
    = Ret (mkResponse 200 (JsonUsers res)) ->
  Z.of_nat (length res) <= Config.MAX_ITEMS_RETURNED config.
Proof.
  intros Hmax Hget.
  destruct (exercise_get_ok_inv _ _ _ _ _ _ _ Hget) as (args & Hparse & Hsel).
  destruct (exercise_parse_get_args _ _ Hparse) as [_ ->].
  rewrite exercise_get_select_result in Hsel. cbn zeta in Hsel.
  injection Hsel as <-.
  match goal with |- context [Z.of_nat (length ?l) >? _] => set (result := l) end.
  destruct (Z.gtb_spec (Z.of_nat (length result)) (Config.MAX_ITEMS_RETURNED config))
    as [Hgt|Hle]; [|exact Hle].
  unfold ExerciseResource.slice_to.
  destruct (Z.ltb_spec (Config.MAX_ITEMS_RETURNED config) 0); [lia|].
  pose proof (firstn_le_length (Z.to_nat (Config.MAX_ITEMS_RETURNED config)) result).
  lia.
Qed.

Lemma exercise_get_capped_witness :
  Z.of_nat (length [(1, ExerciseResource.exercise_json Scenario.str_of_type
                          Scenario.gap_text)]) <= 1.
Proof.
  refine (exercise_get_capped Scenario.cfg1 Scenario.str_of_type Scenario.exercises
            Scenario.db (Scenario.cookie (Scenario.token_of 2)) Scenario.all_exercises
            _ _ eq_refl).
  cbn. lia.
Defined.

(** X20.  Every entry of a 200 of GET /exercise is the view of a stored
    exercise under its id; it has no [exercise_solution] (and no
    [exercise_language]) field; and when the request names a non-empty
    title, the exercise has that title. *)
Theorem exercise_get_entries (config : Config.t) (str_of_type : ExerciseType -> string)
    (exercises : list ExerciseModel) (db : Db.table) (cookies : dict Jwt.Token)
    (q : ExerciseResource.GetQuery) (res : list (Z * dict value)) :
  ExerciseResource.get config str_of_type exercises db cookies q
    = Ret (mkResponse 200 (JsonUsers res)) ->
  forall (k : Z) (e : dict value),
    In (k, e) res ->
    dict_get e "exercise_solution" = None /\
    dict_get e "exercise_language" = None /\
    exists row,
      In row exercises /\ k = exercise_id row /\
      e = ExerciseResource.exercise_json str_of_type row /\
      forall s, ExerciseResource.get_exercise_title q = Some s -> s <> "" ->
                exercise_title row = s.
Proof.
  intros Hget k e Hin.
  destruct (exercise_get_ok_inv _ _ _ _ _ _ _ Hget) as (args & Hparse & Hsel).
  destruct (exercise_parse_get_args _ _ Hparse) as [_ ->].
  rewrite exercise_get_select_result in Hsel. cbn zeta in Hsel.
  injection Hsel as <-.
  assert (Hin' : exists conds,
            In (k, e)
               (fold_left (fun result row =>
                             zdict_set result (exercise_id row)
                               (ExerciseResource.exercise_json str_of_type row))
                          (exercise_select exercises conds) []) /\
            forall s, ExerciseResource.get_exercise_title q = Some s -> s <> "" ->
                      In ("exercise_title", VStr s) conds).
  { eexists. split.
    - destruct (_ >? _); [apply slice_to_In in Hin|]; exact Hin.
    - intros s Hs Hne. rewrite Hs. cbn [arg_str truthy].
      apply String.eqb_neq in Hne. rewrite Hne. cbn [negb].
      apply in_or_app. right. apply in_or_app. left. now left. }
  destruct Hin' as (conds & Hfold & Htitle).
  apply entries_of_fold in Hfold. destruct Hfold as [[]|(row & Hrow & -> & ->)].
  split; [reflexivity|]. split; [reflexivity|].
  unfold exercise_select in Hrow. apply filter_In in Hrow. destruct Hrow as [Hex Hconds].
  exists row. repeat split; [exact Hex|].
  intros s Hs Hne. rewrite forallb_forall in Hconds.
  specialize (Hconds _ (Htitle s Hs Hne)). cbn in Hconds.
  now apply String.eqb_eq in Hconds.
Qed.

Lemma exercise_get_entries_witness :
  dict_get (ExerciseResource.exercise_json Scenario.str_of_type Scenario.find_bug)
    "exercise_solution" = None /\
  dict_get (ExerciseResource.exercise_json Scenario.str_of_type Scenario.find_bug)
    "exercise_language" = None /\
  exists row,
    In row Scenario.exercises /\ 2 = exercise_id row /\
    ExerciseResource.exercise_json Scenario.str_of_type Scenario.find_bug
      = ExerciseResource.exercise_json Scenario.str_of_type row /\
    forall s, ExerciseResource.get_exercise_title Scenario.all_exercises = Some s ->
              s <> "" -> exercise_title row = s.
Proof.
  refine (exercise_get_entries Scenario.cfg Scenario.str_of_type Scenario.exercises
            Scenario.db (Scenario.cookie (Scenario.token_of 2)) Scenario.all_exercises
            _ eq_refl 2 _ _).
  right. left. reflexivity.
Defined.

(** X21.  An [exercise_id] below 1 is ignored: GET /exercise with such an
    id answers what it answers without the id. *)
Theorem exercise_get_ignores_small_id (config : Config.t)
    (str_of_type : ExerciseType -> string) (exercises : list ExerciseModel)
    (db : Db.table) (cookies : dict Jwt.Token) (n : Z)
    (title description type content : option string) :
  n < 1 ->
  ExerciseResource.get config str_of_type exercises db cookies
    (ExerciseResource.mkGetQuery (Given n) title description type content)
  = ExerciseResource.get config str_of_type exercises db cookies
      (ExerciseResource.mkGetQuery Absent title description type content).
Proof.
  intros Hn. unfold ExerciseResource.get, ExerciseResource.parse_get, andthen, arg_int.
  cbn [ExerciseResource.get_exercise_id ExerciseResource.get_exercise_title
       ExerciseResource.get_exercise_description ExerciseResource.get_exercise_type
       ExerciseResource.get_exercise_content].
  destruct (ExerciseResource.access config db cookies true) as [[r|]|e]; cbn [bind];
    try reflexivity.
  rewrite !exercise_get_select_result.
  assert (Hb : ExerciseResource.below_one (VInt n) = true).
  { unfold ExerciseResource.below_one. cbn [as_int]. now apply Z.ltb_lt. }
  rewrite Hb. cbn [negb truthy]. rewrite andb_false_r. reflexivity.
Qed.

Lemma exercise_get_ignores_small_id_witness :
  ExerciseResource.get Scenario.cfg Scenario.str_of_type Scenario.exercises Scenario.db
    (Scenario.cookie (Scenario.token_of 2))
    (ExerciseResource.mkGetQuery (Given (-4)) None None None None)
  = ExerciseResource.get Scenario.cfg Scenario.str_of_type Scenario.exercises Scenario.db
      (Scenario.cookie (Scenario.token_of 2))
      (ExerciseResource.mkGetQuery Absent None None None None).
Proof.
  apply (exercise_get_ignores_small_id Scenario.cfg Scenario.str_of_type
           Scenario.exercises Scenario.db (Scenario.cookie (Scenario.token_of 2)) (-4)).
  lia.
Defined.

(** X22.  Reading exercises takes a verified token with a [user_id] claim
    and nothing else: the user table is not consulted, so the answer is a
    200 and the same whatever the stored users, also when the account
    that the token names is gone. *)
Theorem exercise_get_needs_no_account (config : Config.t)
    (str_of_type : ExerciseType -> string) (exercises : list ExerciseModel)
    (cookies : dict Jwt.Token) (q : ExerciseResource.GetQuery)
    (token : Jwt.Token) (claims : dict value) (uid : value) :
  dict_get cookies "token" = Some token ->
  Jwt.decode token (Config.JWT_SECRET config) ["HS256"] = Ret claims ->
  dict_get claims "user_id" = Some uid ->
  ExerciseResource.get_exercise_id q <> Invalid ->
  forall db : Db.table,
    ExerciseResource.get config str_of_type exercises db cookies q
      = ExerciseResource.get config str_of_type exercises [] cookies q /\
    exists res,
      ExerciseResource.get config str_of_type exercises db cookies q
        = Ret (mkResponse 200 (JsonUsers res)).
Proof.
  intros Hcookie Hdecode Hclaim Hid db.
  assert (Hacc : forall users, ExerciseResource.access config users cookies true = Ret None).
  { intros users. unfold ExerciseResource.access, dict_contains, dict_getitem.
    rewrite Hcookie. cbn [negb bind].
    now rewrite (exercise_read_granted config users token claims uid Hdecode Hclaim). }
  unfold ExerciseResource.get, ExerciseResource.parse_get, andthen, arg_int.
  destruct (ExerciseResource.get_exercise_id q) as [|n|]; [| |contradiction];
    rewrite !Hacc; cbn [bind]; (split; [reflexivity|]);
    rewrite exercise_get_select_result; cbn zeta; eauto.
Qed.

Lemma exercise_get_needs_no_account_witness :
  ExerciseResource.get Scenario.cfg Scenario.str_of_type Scenario.exercises Scenario.db
    (Scenario.cookie (Scenario.token_of 99)) Scenario.all_exercises
  = ExerciseResource.get Scenario.cfg Scenario.str_of_type Scenario.exercises []
      (Scenario.cookie (Scenario.token_of 99)) Scenario.all_exercises /\
  exists res,
    ExerciseResource.get Scenario.cfg Scenario.str_of_type Scenario.exercises Scenario.db
      (Scenario.cookie (Scenario.token_of 99)) Scenario.all_exercises
    = Ret (mkResponse 200 (JsonUsers res)).
Proof.
  refine (exercise_get_needs_no_account Scenario.cfg Scenario.str_of_type
            Scenario.exercises (Scenario.cookie (Scenario.token_of 99))
            Scenario.all_exercises (Scenario.token_of 99) [("user_id", VInt 99)]
            (VInt 99) eq_refl eq_refl eq_refl _ Scenario.db).
  discriminate.
Defined.

(** X23.  A caller of role User (with a non-zero id) cannot list users:
    GET /user without [user_id] is answered 403, or 400 when the parser or
    the page-limit check refuses the query; it is never answered 200. *)
Theorem get_listing_forbidden_for_user (config : Config.t) (db : Db.table)
    (token : Jwt.Token) (claims : dict value) (c : Z) (row : UserModel)
    (cookies : dict Jwt.Token) (q : UserResource.GetQuery) :
  Jwt.decode token (Config.JWT_SECRET config) ["HS256"] = Ret claims ->
  dict_get claims "user_id" = Some (VInt c) ->
  Db.fetchone (Db.execute db (Db.where_ Db.select_from "user_id" Db.CmpEq (VInt c)))
    = Ret (Some row) ->
  user_role row = User ->
  c <> 0 ->
  dict_get cookies "token" = Some token ->
  UserResource.get_user_id q = Absent ->
  exists r, UserResource.get config db cookies q = Ret r /\
            (status r = 400 \/ r = message "No Access" 403).
Proof.
  intros Hdecode Hclaim Hrow Hrole Hc Hcookie Hq.
  unfold UserResource.get.
  destruct (UserResource.parse_get config q) as [r|args] eqn:Hparse.
  - exists r. split; [reflexivity|]. left. eapply parse_get_abort; eassumption.
  - destruct (parse_get_args _ _ _ Hparse) as (role & _ & ->). rewrite Hq.
    cbn [dict_getitem dict_get String.eqb Ascii.eqb Bool.eqb bind].
    destruct (UserResource.in_range _ _); cbn [negb].
    + unfold dict_contains, dict_getitem at 1. rewrite Hcookie. cbn [negb bind].
      rewrite (authorize_known config db token claims c Hdecode Hclaim row Hrow), Hrole.
      assert (H0 : value_eqb (VInt 0) (VInt c) = false)
        by (cbn [value_eqb as_int]; apply Z.eqb_neq; lia).
      cbn [UserRole_eqb UserRole_value Z.eqb Pos.eqb orb]. rewrite H0.
      cbn. eexists. split; [reflexivity|]. now right.
    + eexists. split; [reflexivity|]. now left.
Qed.

Lemma get_listing_forbidden_for_user_witness :
  exists r, UserResource.get Scenario.cfg Scenario.db
              (Scenario.cookie (Scenario.token_of 2)) Scenario.no_query = Ret r /\
            (status r = 400 \/ r = message "No Access" 403).
Proof.
  refine (get_listing_forbidden_for_user Scenario.cfg Scenario.db (Scenario.token_of 2)
            [("user_id", VInt 2)] 2 Scenario.alice (Scenario.cookie (Scenario.token_of 2))
            Scenario.no_query eq_refl eq_refl eq_refl eq_refl _ eq_refl eq_refl).
  discriminate.
Defined.

(** ** The constructors of the models *)

(** X24.  The role argument of [UserModel.__init__]: a member is kept, the
    number of a member gives that member back, a number is accepted
    exactly when it is the number of a member, and every other number
    raises [ValueError]. *)
Theorem user_role_coercion :
  (forall r : UserRole,
      UserResource.as_role (VRole r) = Ret r /\
      UserResource.as_role (VInt (UserRole_value r)) = Ret r) /\
  (forall (n : Z) (r : UserRole),
      UserResource.as_role (VInt n) = Ret r <-> UserRole_value r = n) /\
  (forall n : Z, n < 1 \/ 3 < n -> UserResource.as_role (VInt n) = Raise ValueError).
Proof.
  split; [|split].
  - intros r. destruct r; split; reflexivity.
  - intros n r. unfold UserResource.as_role, UserRole_of_int. split.
    + destruct (Z.eqb_spec n 1); [intros [= <-]; now subst|].
      destruct (Z.eqb_spec n 2); [intros [= <-]; now subst|].
      destruct (Z.eqb_spec n 3); [intros [= <-]; now subst|discriminate].
    + intros <-. destruct r; reflexivity.
  - intros n Hn. unfold UserResource.as_role, UserRole_of_int.
    destruct (Z.eqb_spec n 1); [lia|].
    destruct (Z.eqb_spec n 2); [lia|].
    destruct (Z.eqb_spec n 3); [lia|reflexivity].
Qed.

(** X25.  [ExerciseModel.__init__] takes the type and the language as
    members or as their numbers, with the same result; a type number
    outside 1..7 or a language number outside 1..2 raises [ValueError],
    and no object is made. *)
Theorem exercise_model_init_coercion (title description content solution : string) :
  (forall (t : ExerciseType) (l : ExerciseLanguage),
      ExerciseModel_init title description (Number (ExerciseType_value t))
        content solution (Number (ExerciseLanguage_value l))
      = ExerciseModel_init title description (Member t) content solution (Member l) /\
      ExerciseModel_init title description (Member t) content solution (Member l)
      = Ret (mkExercise 0 title (Some description) t (Some content) (Some solution) l)) /\
  (forall (n : Z) (l : enum_arg ExerciseLanguage),
      n < 1 \/ 7 < n ->
      ExerciseModel_init title description (Number n) content solution l
      = Raise ValueError) /\
  (forall (t : enum_arg ExerciseType) (n : Z),
      n < 1 \/ 2 < n ->
      ExerciseModel_init title description t content solution (Number n)
      = Raise ValueError).
Proof.
  split; [|split].
  - intros t l. destruct t, l; split; reflexivity.
  - intros n l Hn. unfold ExerciseModel_init, coerce, ExerciseType_of_int.
    repeat (match goal with
            | |- context [?a =? ?b] => destruct (Z.eqb_spec a b); [lia|]
            end).
    reflexivity.
  - intros t n Hn. unfold ExerciseModel_init, coerce.
    assert (Hl : ExerciseLanguage_of_int n = None).
    { unfold ExerciseLanguage_of_int.
      destruct (Z.eqb_spec n 1); [lia|]. destruct (Z.eqb_spec n 2); [lia|reflexivity]. }
    rewrite Hl. destruct t as [t|m]; [reflexivity|].
    destruct (ExerciseType_of_int m); reflexivity.
Qed.
